(** * MosesQuant: the Python alpha models of [python_examples/strategy_example.py]

    A shallow embedding of [RSIAlphaModel], [MovingAverageCrossAlphaModel] and
    [CompositeAlphaModel], and the properties of their [generate_insights]
    methods.

    Conventions of the embedding.
    - A Python [float] is an IEEE-754 binary64 number: Rocq's primitive
      [float], with its comparisons and its correctly rounded arithmetic.
    - A Python [int] is a [Z]; [len] of a list is the [Z] (or [nat]) length.
    - A call that may raise returns a [result]: [Ok v] or [Raise e].  The
      exceptions of the model are the instances of Python's [Exception], the
      ones a clause [except Exception] catches.
    - The module [moses_quant] (imported as [mq]) is a compiled binding that
      is not part of the Python sources.  The methods of its data provider
      and calculation engine are parameters of the development: functions
      of their arguments that return a list of floats or raise.  Creating
      [mq.PyCalculationEngine()] and [mq.PyDataProvider()] is taken to
      succeed.  Its [PyInsight] is a record whose optional fields start
      unset.
    - [sum] adds from left to right, as it does in the Python versions the
      package declares (3.7 to 3.11).
    - [print] only produces diagnostic output and is left out. *)

From Stdlib Require Import List String ZArith Lia Bool Floats Permutation.
Import ListNotations.

Set Warnings "-inexact-float".

Open Scope string_scope.
Open Scope list_scope.

(* ===================================================================== *)
(** ** The Python runtime                                                  *)
(* ===================================================================== *)

Module Py.

  (** An instance of [Exception], with its message. *)
Inductive exn : Type :=
  | Exception (msg : string).

Inductive result (A : Type) : Type :=
  | Ok (a : A)
  | Raise (e : exn).

Arguments Ok {A} a.
Arguments Raise {A} e.

Definition bind {A B : Type} (c : result A) (k : A -> result B) : result B :=
    match c with
    | Ok a => k a
    | Raise e => Raise e
    end.

  (** [try: body / except Exception as e: handler e] *)
Definition try_except {A : Type} (body : result A) (handler : exn -> result A)
    : result A :=
    match body with
    | Ok a => Ok a
    | Raise e => handler e
    end.

  (** [len(l)] *)
Definition len {A : Type} (l : list A) : Z := Z.of_nat (List.length l).

  (** [l[-k]] for [k >= 1]: the [k]-th element from the end, [IndexError]
      when the list is shorter. *)
Definition getitem_neg {A : Type} (l : list A) (k : nat) : result A :=
    match nth_error (rev l) (pred k) with
    | Some a => Ok a
    | None => Raise (Exception "list index out of range")
    end.

  (** [min(a, b)] on floats: the first argument unless the second is
      strictly smaller. *)
Definition min (a b : float) : float :=
    if (b <? a)%float then b else a.

  (** [float(n)] for an [int] [n], rounded to nearest even. *)
Definition float_of_int (n : Z) : float :=
    SF2Prim (binary_normalize prec emax n 0 false).

  (** [sum(xs)] on floats: the items added from left to right to the
      start value [0]. *)
Definition sum (xs : list float) : float :=
    fold_left PrimFloat.add xs 0%float.

  (** [c or d] for an optional float [c]: [None] and the zeros are falsy. *)
Definition or_else (c : option float) (d : float) : float :=
    match c with
    | None => d
    | Some x => if (x =? 0)%float then d else x
    end.

(** [a / b] on floats: [ZeroDivisionError] when the divisor is a zero. *)
Definition truediv (a b : float) : result float :=
  if (b =? 0)%float then Raise (Exception "float division by zero")
  else Ok (a / b)%float.

(** [l[i]] for [i >= 0], [IndexError] when out of range. *)
Definition getitem {A : Type} (l : list A) (i : nat) : result A :=
  match nth_error l i with
  | Some a => Ok a
  | None => Raise (Exception "list index out of range")
  end.

(** [[f(x) for x in xs]], the items computed from left to right. *)
Fixpoint comprehension {A B : Type} (f : A -> result B) (xs : list A)
  : result (list B) :=
  match xs with
  | [] => Ok []
  | x :: rest =>
    match f x with
    | Ok y =>
      match comprehension f rest with
      | Ok ys => Ok (y :: ys)
      | Raise e => Raise e
      end
    | Raise e => Raise e
    end
  end.

(** [f"{c:.2f}"] needs a number: [TypeError] on [None]. *)
Definition format_2f (c : option float) : result unit :=
  match c with
  | Some _ => Ok tt
  | None => Raise (Exception "unsupported format string passed to NoneType.__format__")
  end.

End Py.

Import Py.

Declare Scope py_scope.
Delimit Scope py_scope with py.
Notation "x <- c ;; k" := (bind c (fun x => k))
  (at level 61, c at next level, right associativity) : py_scope.
Open Scope py_scope.

(* ===================================================================== *)
(** ** The binding [moses_quant]                                           *)
(* ===================================================================== *)

Module Mq.

  (** Modelled from the spec: the class [mq.PyInsight] of the compiled
      binding.  An insight has a symbol and a direction (strings), an
      optional confidence, a magnitude and the name of the model that
      produced it; the constructor takes the symbol and the direction and
      leaves the other attributes unset. *)
Record PyInsight : Type := mkInsight {
    symbol : string;
    direction : string;
    confidence : option float;
    magnitude : option float;
    source_model : option string
  }.

Definition new (sym dir : string) : PyInsight :=
    mkInsight sym dir None None None.

Definition set_confidence (i : PyInsight) (c : float) : PyInsight :=
    mkInsight (symbol i) (direction i) (Some c) (magnitude i) (source_model i).

Definition set_magnitude (i : PyInsight) (m : float) : PyInsight :=
    mkInsight (symbol i) (direction i) (confidence i) (Some m) (source_model i).

Definition set_source_model (i : PyInsight) (s : string) : PyInsight :=
    mkInsight (symbol i) (direction i) (confidence i) (magnitude i) (Some s).

End Mq.

Import Mq.

(** The insight a model called [name] builds: constructed from the symbol
    and the direction, then the three attributes assigned. *)
Definition make_insight (name sym dir : string) (conf : float) : PyInsight :=
  set_source_model (set_magnitude (set_confidence (Mq.new sym dir) conf) 1%float) name.

(** [for x in xs: st = body x st] *)
Fixpoint for_each {A S : Type} (body : A -> S -> result S) (xs : list A) (st : S)
  : result S :=
  match xs with
  | [] => Ok st
  | x :: rest => st' <- body x st ;; for_each body rest st'
  end.

(* ===================================================================== *)
(** ** [class BasePythonAlphaModel]                                        *)
(* ===================================================================== *)

Module BasePythonAlphaModel.

(** What every model offers to its callers: its name and the abstract
    method [generate_insights]. *)
Record t : Type := mk {
  name : string;
  generate_insights : list string -> result (list PyInsight)
}.

End BasePythonAlphaModel.

(* ===================================================================== *)
(** ** [class RSIAlphaModel]                                               *)
(* ===================================================================== *)

Module RSIAlphaModel.

Record t : Type := mk {
  name : string;
  rsi_period : Z;
  overbought : float;
  oversold : float
}.

(** [__init__]: the three parameters are stored as given. *)
Definition init (rsi_period : Z) (overbought oversold : float) : result t :=
  Ok (mk "RSI_Alpha_Model" rsi_period overbought oversold).

Section Collaborators.

(** [PyDataProvider.get_price_history] and [PyCalculationEngine.calculate_rsi]
    of the binding.  Each may raise. *)
Variable get_price_history : string -> Z -> result (list float).
Variable calculate_rsi : list float -> Z -> result (list float).

(** The statements of the [try] block for one symbol. *)
Definition try_block (self : t) (sym : string) (insights : list PyInsight)
  : result (list PyInsight) :=
  prices <- get_price_history sym 50 ;;
  if (len prices <? rsi_period self + 1)%Z then Ok insights
  else
    rsi_values <- calculate_rsi prices (rsi_period self) ;;
    match rsi_values with
    | [] => Ok insights
    | _ :: _ =>
      latest_rsi <- getitem_neg rsi_values 1 ;;
      if (overbought self <? latest_rsi)%float then
        Ok (insights ++
            [make_insight (name self) sym "Down"
               (Py.min 0.9 ((latest_rsi - overbought self) / 10.0))%float])
      else if (latest_rsi <? oversold self)%float then
        Ok (insights ++
            [make_insight (name self) sym "Up"
               (Py.min 0.9 ((oversold self - latest_rsi) / 10.0))%float])
      else Ok insights
    end.

(** One turn of the loop: the [try] block, any exception skipped. *)
Definition loop_body (self : t) (sym : string) (insights : list PyInsight)
  : result (list PyInsight) :=
  try_except (try_block self sym insights) (fun _ => Ok insights).

Definition generate_insights (self : t) (symbols : list string)
  : result (list PyInsight) :=
  for_each (loop_body self) symbols [].

(** What the turn of the loop for [sym] appends to the result. *)
Definition emitted (self : t) (sym : string) : list PyInsight :=
  match try_block self sym [] with
  | Ok l => l
  | Raise _ => []
  end.

(** A collaborator raises while [sym] is processed: the data provider, or
    the engine once it is called on a long enough history. *)
Definition collaborator_raises (self : t) (sym : string) : Prop :=
  (exists e, get_price_history sym 50 = Raise e)
  \/ (exists prices e,
        get_price_history sym 50 = Ok prices
        /\ (rsi_period self + 1 <= len prices)%Z
        /\ calculate_rsi prices (rsi_period self) = Raise e).

(** The model as an instance of the base class. *)
Definition as_model (self : t) : BasePythonAlphaModel.t :=
  BasePythonAlphaModel.mk (name self) (generate_insights self).

End Collaborators.

End RSIAlphaModel.

(* ===================================================================== *)
(** ** [class MovingAverageCrossAlphaModel]                                *)
(* ===================================================================== *)

Module MovingAverageCrossAlphaModel.

Record t : Type := mk {
  name : string;
  fast_period : Z;
  slow_period : Z
}.

(** [__init__] *)
Definition init (fast_period slow_period : Z) : result t :=
  Ok (mk "MA_Cross_Alpha_Model" fast_period slow_period).

Section Collaborators.

Variable get_price_history : string -> Z -> result (list float).
Variable calculate_sma : list float -> Z -> result (list float).

Definition try_block (self : t) (sym : string) (insights : list PyInsight)
  : result (list PyInsight) :=
  prices <- get_price_history sym (Z.max (fast_period self) (slow_period self) + 10) ;;
  if (len prices <? slow_period self + 2)%Z then Ok insights
  else
    fast_ma <- calculate_sma prices (fast_period self) ;;
    slow_ma <- calculate_sma prices (slow_period self) ;;
    if ((len fast_ma <? 2)%Z || (len slow_ma <? 2)%Z)%bool then Ok insights
    else
      fast_current <- getitem_neg fast_ma 1 ;;
      fast_previous <- getitem_neg fast_ma 2 ;;
      slow_current <- getitem_neg slow_ma 1 ;;
      slow_previous <- getitem_neg slow_ma 2 ;;
      if ((fast_previous <=? slow_previous)%float
          && (slow_current <? fast_current)%float)%bool then
        Ok (insights ++ [make_insight (name self) sym "Up" 0.7%float])
      else if ((slow_previous <=? fast_previous)%float
               && (fast_current <? slow_current)%float)%bool then
        Ok (insights ++ [make_insight (name self) sym "Down" 0.7%float])
      else Ok insights.

Definition loop_body (self : t) (sym : string) (insights : list PyInsight)
  : result (list PyInsight) :=
  try_except (try_block self sym insights) (fun _ => Ok insights).

Definition generate_insights (self : t) (symbols : list string)
  : result (list PyInsight) :=
  for_each (loop_body self) symbols [].

Definition emitted (self : t) (sym : string) : list PyInsight :=
  match try_block self sym [] with
  | Ok l => l
  | Raise _ => []
  end.

(** A collaborator raises while [sym] is processed: the data provider, or
    the engine on the fast or on the slow average. *)
Definition collaborator_raises (self : t) (sym : string) : Prop :=
  let n := (Z.max (fast_period self) (slow_period self) + 10)%Z in
  (exists e, get_price_history sym n = Raise e)
  \/ (exists prices e,
        get_price_history sym n = Ok prices
        /\ (slow_period self + 2 <= len prices)%Z
        /\ (calculate_sma prices (fast_period self) = Raise e
            \/ (exists fast_ma,
                  calculate_sma prices (fast_period self) = Ok fast_ma
                  /\ calculate_sma prices (slow_period self) = Raise e))).

Definition as_model (self : t) : BasePythonAlphaModel.t :=
  BasePythonAlphaModel.mk (name self) (generate_insights self).

End Collaborators.

End MovingAverageCrossAlphaModel.

(* ===================================================================== *)
(** ** [class CompositeAlphaModel]                                         *)
(* ===================================================================== *)

Module CompositeAlphaModel.

Record t : Type := mk {
  name : string;
  models : list BasePythonAlphaModel.t
}.

Definition init (models : list BasePythonAlphaModel.t) : result t :=
  Ok (mk "Composite_Alpha_Model" models).

(** The dictionary [insights_by_symbol]: the keys in the order of their
    first insertion, each with its list of insights. *)
Definition dict : Type := list (string * list PyInsight).

(** [if symbol not in d: d[symbol] = []] then [d[symbol].append(insight)] *)
Fixpoint dict_append (d : dict) (sym : string) (insight : PyInsight) : dict :=
  match d with
  | [] => [(sym, [insight])]
  | (k, v) :: d' =>
    if String.eqb k sym then (k, v ++ [insight]) :: d'
    else (k, v) :: dict_append d' sym insight
  end.

(** The first loop: every model asked in turn, its insights appended. *)
Definition collect (models : list BasePythonAlphaModel.t) (symbols : list string)
  : result (list PyInsight) :=
  for_each
    (fun model all_insights =>
       model_insights <- BasePythonAlphaModel.generate_insights model symbols ;;
       Ok (all_insights ++ model_insights))
    models [].

(** The second loop: the insights grouped by symbol. *)
Definition group_by_symbol (all_insights : list PyInsight) : dict :=
  fold_left (fun d insight => dict_append d (symbol insight) insight) all_insights [].

(** [sum(i.confidence or 0.5 for i in xs) / len(xs)] *)
Definition avg_confidence (xs : list PyInsight) : float :=
  (Py.sum (map (fun i => or_else (confidence i) 0.5%float) xs)
   / float_of_int (len xs))%float.

Definition is_up (i : PyInsight) : bool := String.eqb (direction i) "Up".
Definition is_down (i : PyInsight) : bool := String.eqb (direction i) "Down".

(** One turn of the third loop, for the key [sym] and its insights. *)
Definition consensus_step (self_name : string) (composite_insights : list PyInsight)
  (item : string * list PyInsight) : list PyInsight :=
  let (sym, symbol_insights) := item in
  if (2 <=? len symbol_insights)%Z then
    let up_insights := filter is_up symbol_insights in
    let down_insights := filter is_down symbol_insights in
    if (len down_insights <? len up_insights)%Z then
      composite_insights
        ++ [make_insight self_name sym "Up" (avg_confidence up_insights)]
    else if (len up_insights <? len down_insights)%Z then
      composite_insights
        ++ [make_insight self_name sym "Down" (avg_confidence down_insights)]
    else composite_insights
  else composite_insights.

(** What the turn of the third loop for one item appends. *)
Definition emitted (self_name : string) (item : string * list PyInsight)
  : list PyInsight :=
  consensus_step self_name [] item.

(** [d.get(sym, [])] and [list(d.keys())], to state what the dictionary
    holds. *)
Fixpoint lookup (d : dict) (sym : string) : list PyInsight :=
  match d with
  | [] => []
  | (k, v) :: d' => if String.eqb k sym then v else lookup d' sym
  end.

Definition keys (d : dict) : list string := map fst d.

(** The third loop, over the items of the dictionary in insertion order. *)
Definition consensus (self_name : string) (d : dict) : list PyInsight :=
  fold_left (consensus_step self_name) d [].

Definition generate_insights (self : t) (symbols : list string)
  : result (list PyInsight) :=
  all_insights <- collect (models self) symbols ;;
  Ok (consensus (name self) (group_by_symbol all_insights)).

Definition as_model (self : t) : BasePythonAlphaModel.t :=
  BasePythonAlphaModel.mk (name self) (generate_insights self).

End CompositeAlphaModel.

(* ===================================================================== *)
(** ** [demonstrate_python_strategy]                                       *)
(* ===================================================================== *)

Module Demonstration.

(** What [calculate_risk_metrics] returns. *)
Record RiskMetrics : Type := mkRisk {
  volatility : float;
  var_95 : float;
  sharpe_ratio : float;
  max_drawdown : float
}.

(** What the demonstration prints: the insights of the three models, the
    number of prices, the latest value of each indicator and the risk
    metrics. *)
Record report : Type := mkReport {
  rsi_insights : list PyInsight;
  ma_insights : list PyInsight;
  composite_insights : list PyInsight;
  n_prices : Z;
  sma_latest : float;
  ema_latest : float;
  rsi_latest : float;
  risk_metrics : RiskMetrics
}.

Definition symbols : list string := ["BTCUSDT"; "ETHUSDT"; "ADAUSDT"; "SOLUSDT"].

(** [[(prices[i] - prices[i-1]) / prices[i-1] for i in range(1, len(prices))]] *)
Definition returns (prices : list float) : result (list float) :=
  comprehension
    (fun i =>
       cur <- getitem prices i ;;
       prev <- getitem prices (i - 1) ;;
       prev' <- getitem prices (i - 1) ;;
       truediv (cur - prev)%float prev')
    (seq 1 (List.length prices - 1)).

(** The loop that prints each insight with its confidence. *)
Definition print_insights (insights : list PyInsight) : result unit :=
  for_each (fun insight _ => format_2f (confidence insight)) insights tt.

Section Collaborators.

Variable get_price_history : string -> Z -> result (list float).
Variable calculate_rsi : list float -> Z -> result (list float).
Variable calculate_sma : list float -> Z -> result (list float).
Variable calculate_ema : list float -> Z -> result (list float).
Variable calculate_risk_metrics : list float -> result RiskMetrics.

(** Parts 1 to 3: the three models on the four symbols. *)
Definition strategies : result (list PyInsight * list PyInsight * list PyInsight) :=
  rsi_model <- RSIAlphaModel.init 14 70.0 30.0 ;;
  rsi_insights <- RSIAlphaModel.generate_insights
                    get_price_history calculate_rsi rsi_model symbols ;;
  _ <- print_insights rsi_insights ;;
  ma_model <- MovingAverageCrossAlphaModel.init 10 20 ;;
  ma_insights <- MovingAverageCrossAlphaModel.generate_insights
                   get_price_history calculate_sma ma_model symbols ;;
  _ <- print_insights ma_insights ;;
  composite_model <- CompositeAlphaModel.init
                       [RSIAlphaModel.as_model get_price_history calculate_rsi rsi_model;
                        MovingAverageCrossAlphaModel.as_model
                          get_price_history calculate_sma ma_model] ;;
  composite_insights <- CompositeAlphaModel.generate_insights composite_model symbols ;;
  _ <- print_insights composite_insights ;;
  Ok (rsi_insights, ma_insights, composite_insights).

(** Part 4: the indicators and risk metrics of ["BTCUSDT"]. *)
Definition indicators : result (Z * float * float * float * RiskMetrics) :=
  prices <- get_price_history "BTCUSDT" 30 ;;
  sma_20 <- calculate_sma prices 20 ;;
  ema_20 <- calculate_ema prices 20 ;;
  rsi_14 <- calculate_rsi prices 14 ;;
  sma_latest <- getitem_neg sma_20 1 ;;
  ema_latest <- getitem_neg ema_20 1 ;;
  rsi_latest <- getitem_neg rsi_14 1 ;;
  rets <- returns prices ;;
  risk <- calculate_risk_metrics rets ;;
  Ok (len prices, sma_latest, ema_latest, rsi_latest, risk).

Definition demonstrate_python_strategy : result report :=
  s <- strategies ;;
  i <- indicators ;;
  let '(rsi_insights, ma_insights, composite_insights) := s in
  let '(n, sma_latest, ema_latest, rsi_latest, risk) := i in
  Ok (mkReport rsi_insights ma_insights composite_insights
        n sma_latest ema_latest rsi_latest risk).

End Collaborators.

End Demonstration.

(* ===================================================================== *)
(** ** Sample collaborators and models, for the concrete runs              *)
(* ===================================================================== *)

Module Sample.

(** Thirty prices for every symbol but ["BAD"], for which the provider
    raises, and ["NEW"], which has three prices only. *)
Definition get_price_history (sym : string) (n : Z) : result (list float) :=
  if String.eqb sym "BAD" then Raise (Exception "no such symbol")
  else if String.eqb sym "NEW" then Ok [1; 2; 3]%float
  else Ok (repeat 100%float 30).

(** An engine whose RSI series ends at a chosen value. *)
Definition calculate_rsi (latest : float) (prices : list float) (period : Z)
  : result (list float) :=
  Ok [50; latest]%float.

(** An engine whose fast and slow averages are chosen series. *)
Definition calculate_sma (fast_period : Z) (fast slow : list float)
  (prices : list float) (period : Z) : result (list float) :=
  if (period =? fast_period)%Z then Ok fast else Ok slow.

(** A model that emits one given insight whatever the symbols. *)
Definition constant_model (n sym dir : string) (c : option float)
  : BasePythonAlphaModel.t :=
  BasePythonAlphaModel.mk n
    (fun _ => Ok [mkInsight sym dir c (Some 1%float) (Some n)]).

Definition composite (ms : list BasePythonAlphaModel.t) : CompositeAlphaModel.t :=
  CompositeAlphaModel.mk "Composite_Alpha_Model" ms.

(** A model whose [generate_insights] raises. *)
Definition failing_model (n : string) : BasePythonAlphaModel.t :=
  BasePythonAlphaModel.mk n (fun _ => Raise (Exception "model failure")).

(** An engine without an RSI series. *)
Definition no_rsi (prices : list float) (period : Z) : result (list float) := Ok [].

End Sample.

(* ===================================================================== *)
(** ** Specification-side definitions                                      *)
(* ===================================================================== *)

(** The insights of a list that concern one symbol. *)
Definition for_symbol (s : string) (l : list PyInsight) : list PyInsight :=
  filter (fun i => String.eqb (symbol i) s) l.

(** The arithmetic mean of the confidences of a group, as the specification
    words it: a missing confidence counts as 0.5, every other one as
    itself. *)
Definition mean_confidence (xs : list PyInsight) : float :=
  (Py.sum (map (fun i => match confidence i with
                         | Some c => c
                         | None => 0.5
                         end) xs)
   / float_of_int (len xs))%float.

(** No confidence of the group is a zero. *)
Definition no_zero_confidence (xs : list PyInsight) : Prop :=
  Forall (fun i => forall c, confidence i = Some c -> (c =? 0)%float = false) xs.

(** One insight at most, and for the symbol [s]. *)
Definition at_most_one_for (s : string) (l : list PyInsight) : Prop :=
  l = [] \/ exists i, l = [i] /\ symbol i = s.

(** The symbols of a list, each at its first occurrence. *)
Fixpoint first_occurrences (l : list string) : list string :=
  match l with
  | [] => []
  | x :: rest => x :: filter (fun y => negb (String.eqb x y)) (first_occurrences rest)
  end.

(** [s] is one of the strings of [l]. *)
Definition mem (s : string) (l : list string) : bool := existsb (String.eqb s) l.

(** A group reaches the quorum and has a strict majority. *)
Definition decided (g : list PyInsight) : bool :=
  ((2 <=? len g)%Z
   && ((len (filter CompositeAlphaModel.is_down g)
        <? len (filter CompositeAlphaModel.is_up g))%Z
       || (len (filter CompositeAlphaModel.is_up g)
           <? len (filter CompositeAlphaModel.is_down g))%Z))%bool.

(** A list of insights has one for the symbol [s]. *)
Definition mentions (s : string) (l : list PyInsight) : bool :=
  existsb (fun i => String.eqb (symbol i) s) l.

(** An insight as the three models build it: for [sym], Up or Down, with a
    confidence, the magnitude 1.0 and the name of its model. *)
Definition well_formed (model_name : string) (i : PyInsight) : Prop :=
  (direction i = "Up" \/ direction i = "Down")
  /\ (exists c, confidence i = Some c)
  /\ magnitude i = Some 1%float
  /\ source_model i = Some model_name.

(** The place of a float in the order of the comparisons: minus infinity,
    the negative numbers, the zeros, the positive numbers, plus infinity;
    [None] for NaN. *)
Definition order_key (x : spec_float) : option (Z * Z * Z) :=
  match x with
  | S754_nan => None
  | S754_infinity true => Some (-2, 0, 0)%Z
  | S754_finite true m e => Some (-1, - e, - Zpos m)%Z
  | S754_zero _ => Some (0, 0, 0)%Z
  | S754_finite false m e => Some (1, e, Zpos m)%Z
  | S754_infinity false => Some (2, 0, 0)%Z
  end.

Definition key_lt (a b : Z * Z * Z) : Prop :=
  let '(a1, a2, a3) := a in
  let '(b1, b2, b3) := b in
  (a1 < b1 \/ (a1 = b1 /\ (a2 < b2 \/ (a2 = b2 /\ a3 < b3))))%Z.

(** The comparison of two floats with its arguments exchanged. *)
Definition opp_cmp (c : option comparison) : option comparison :=
  match c with
  | Some c => Some (CompOpp c)
  | None => None
  end.

(** Neither a negative number nor minus infinity. *)
Definition not_negative (x : spec_float) : Prop :=
  match x with
  | S754_infinity true | S754_finite true _ _ => False
  | _ => True
  end.

(* ===================================================================== *)
(** ** Loops                                                               *)
(* ===================================================================== *)

Section Loops.

Context {A S : Type}.

(** A loop whose body always succeeds and only appends to the
    accumulator returns the concatenation of what each turn appends. *)
Lemma for_each_appends (f : A -> list S) (body : A -> list S -> result (list S)) :
  (forall x st, body x st = Ok (st ++ f x)) ->
  forall xs st, for_each body xs st = Ok (st ++ flat_map f xs).
Proof.
  intros Hbody xs; induction xs as [|x xs IH]; intros st; simpl.
  - now rewrite app_nil_r.
  - rewrite Hbody; simpl. rewrite IH. now rewrite <- app_assoc.
Qed.

End Loops.

Lemma getitem_neg_last {A : Type} (l : list A) (x : A) :
  getitem_neg (l ++ [x]) 1 = Ok x.
Proof. unfold getitem_neg. now rewrite rev_app_distr. Qed.

Lemma getitem_neg_last2 {A : Type} (l : list A) (x y : A) :
  getitem_neg (l ++ [x; y]) 2 = Ok x /\ getitem_neg (l ++ [x; y]) 1 = Ok y.
Proof. unfold getitem_neg. now rewrite rev_app_distr. Qed.

Lemma len_app {A : Type} (l1 l2 : list A) : len (l1 ++ l2) = (len l1 + len l2)%Z.
Proof. unfold len. rewrite length_app. lia. Qed.

(* ===================================================================== *)
(** ** Binary64 comparisons, and the sign of a difference                  *)
(* ===================================================================== *)

Module FloatFacts.

Lemma SFcompare_antisym (a b : spec_float) :
  SFcompare b a = opp_cmp (SFcompare a b).
Proof.
  destruct a as [sa|sa| |sa ma ea], b as [sb|sb| |sb mb eb]; simpl;
    try reflexivity;
    try (destruct sa; reflexivity); try (destruct sb; reflexivity);
    try (destruct sa, sb; reflexivity).
  destruct sa, sb; simpl; try reflexivity;
    rewrite (Z.compare_antisym ea eb);
    destruct (ea ?= eb)%Z; simpl; try reflexivity;
    try rewrite CompOpp_involutive;
    rewrite ?(Pos.compare_cont_antisym ma mb Eq), ?(Pos.compare_cont_antisym mb ma Eq);
    reflexivity.
Qed.

Lemma leb_not_ltb (x y : float) : (x <=? y)%float = true -> (y <? x)%float = false.
Proof.
  rewrite leb_spec, ltb_spec. unfold SFleb, SFltb.
  rewrite (SFcompare_antisym (Prim2SF x) (Prim2SF y)).
  destruct (SFcompare (Prim2SF x) (Prim2SF y)) as [[ | | ]|]; simpl; congruence.
Qed.

Lemma ltb_leb (x y : float) : (x <? y)%float = true -> (x <=? y)%float = true.
Proof.
  rewrite leb_spec, ltb_spec. unfold SFleb, SFltb.
  destruct (SFcompare (Prim2SF x) (Prim2SF y)) as [[ | | ]|]; simpl; congruence.
Qed.

Lemma eqb_leb (x y : float) :
  (x =? y)%float = true -> (x <=? y)%float = true /\ (y <=? x)%float = true.
Proof.
  rewrite eqb_spec, !leb_spec. unfold SFeqb, SFleb.
  rewrite (SFcompare_antisym (Prim2SF x) (Prim2SF y)).
  destruct (SFcompare (Prim2SF x) (Prim2SF y)) as [[ | | ]|]; simpl;
    (discriminate || auto).
Qed.

Lemma ltb_asym (x y : float) : (x <? y)%float = true -> (y <? x)%float = false.
Proof.
  intros H. apply leb_not_ltb. now apply ltb_leb.
Qed.

(** Adding two numbers to the start value 0 of a sum, in either order. *)
Lemma SFadd_zero_swap (x y : spec_float) :
  SF64add (SF64add (S754_zero false) x) y = SF64add (SF64add (S754_zero false) y) x.
Proof.
  unfold SF64add.
  destruct x as [sx|sx| |sx mx ex], y as [sy|sy| |sy my ey];
    try (destruct sx); try (destruct sy); try reflexivity;
    cbn [SFadd]; rewrite (Z.min_comm ey ex); f_equal; apply Z.add_comm.
Qed.

Lemma add_zero_swap (x y : float) : (0 + x + y = 0 + y + x)%float.
Proof.
  apply Prim2SF_inj. rewrite !add_spec.
  change (Prim2SF 0) with (S754_zero false).
  apply SFadd_zero_swap.
Qed.

Lemma digits2_pos_size (m : positive) : digits2_pos m = Pos.size m.
Proof. induction m; simpl; congruence. Qed.

Lemma iter_xO_pow (m d : positive) : Pos.iter xO m d = (m * 2 ^ d)%positive.
Proof.
  induction d using Pos.peano_ind.
  - simpl. lia.
  - rewrite Pos.iter_succ, IHd, Pos.pow_succ_r. lia.
Qed.

(** Of two valid finite numbers, the one with the larger exponent has the
    larger aligned mantissa. *)
Lemma aligned_mantissa_le (m1 m2 : positive) (e1 e2 : Z) :
  bounded prec emax m1 e1 = true ->
  bounded prec emax m2 e2 = true ->
  (e1 < e2)%Z ->
  (Zpos (fst (shl_align m1 e1 (Z.min e1 e2)))
   <= Zpos (fst (shl_align m2 e2 (Z.min e1 e2))))%Z.
Proof.
  intros B1 B2 Hlt.
  unfold bounded, canonical_mantissa, fexp, SpecFloat.emin in *.
  apply andb_prop in B1, B2. destruct B1 as [C1 _], B2 as [C2 _].
  apply Z.eqb_eq in C1, C2.
  rewrite digits2_pos_size in C1, C2.
  rewrite Z.min_l by lia.
  unfold shl_align. rewrite Z.sub_diag.
  destruct (e1 - e2)%Z as [|d|d] eqn:Hd; try lia.
  simpl fst. rewrite iter_xO_pow.
  pose proof (Pos.size_gt m1) as G1.
  pose proof (Pos.size_le m2) as L2.
  assert (S2 : Zpos (Pos.size m2) = prec) by (unfold prec, emax in *; lia).
  assert (S1 : (Zpos (Pos.size m1) <= prec)%Z) by (unfold prec, emax in *; lia).
  assert (P1 : (Zpos m1 < 2 ^ prec)%Z).
  { apply Z.lt_le_trans with (2 ^ Zpos (Pos.size m1))%Z.
    - rewrite <- Pos2Z.inj_pow. lia.
    - apply Z.pow_le_mono_r; lia. }
  assert (P2 : (2 ^ prec <= 2 * Zpos m2)%Z).
  { rewrite <- S2, <- Pos2Z.inj_pow. lia. }
  assert (P3 : (2 <= 2 ^ Zpos d)%Z).
  { change 2%Z with (2 ^ 1)%Z at 1. apply Z.pow_le_mono_r; lia. }
  rewrite Pos2Z.inj_mul, Pos2Z.inj_pow. nia.
Qed.

Lemma binary_round_aux_not_negative (m e : Z) (l : location) :
  not_negative (binary_round_aux prec emax false m e l).
Proof.
  unfold binary_round_aux.
  destruct (shr_fexp prec emax m e l) as [mrs' e'].
  destruct (shr_fexp prec emax _ e' loc_Exact) as [mrs'' e''].
  destruct (shr_m mrs''); simpl; auto.
  destruct (_ <=? _)%Z; simpl; auto.
Qed.

Lemma binary_normalize_not_negative (m e : Z) :
  (0 <= m)%Z -> not_negative (binary_normalize prec emax m e false).
Proof.
  intros Hm. destruct m as [|p|p]; simpl; auto; [|lia].
  unfold binary_round.
  destruct (shl_align p e _) as [mz ez].
  apply binary_round_aux_not_negative.
Qed.

Lemma SFsub_not_negative (x y : spec_float) :
  valid_binary x = true -> valid_binary y = true ->
  SFltb y x = true ->
  not_negative (SF64sub x y).
Proof.
  intros Vx Vy. unfold SFltb, SF64sub.
  destruct x as [sx|sx| |sx mx ex], y as [sy|sy| |sy my ey]; simpl;
    try discriminate;
    try (destruct sx; simpl; discriminate || auto; fail);
    try (destruct sy; simpl; discriminate || auto; fail);
    try (destruct sx, sy; simpl; discriminate || auto; fail).
  intros Hcmp. apply binary_normalize_not_negative.
  simpl in Vx, Vy.
  destruct sx, sy; unfold cond_Zopp; simpl in Hcmp; try discriminate; try lia.
  - (* both negative: [y < x] when [y] has the larger magnitude *)
    destruct (ey ?= ex)%Z eqn:He; try discriminate.
    + apply Z.compare_eq in He; subst ey.
      rewrite Z.min_id. unfold shl_align. rewrite Z.sub_diag. cbn [fst].
      destruct (Pos.compare_cont Eq my mx) eqn:Hm; try discriminate.
      change (Pos.compare_cont Eq my mx) with (my ?= mx)%positive in Hm.
      assert (Hgt : (mx < my)%positive) by (now apply Pos.compare_gt_iff). lia.
    + apply Z.compare_gt_iff in He.
      pose proof (@aligned_mantissa_le mx my ex ey Vx Vy He). lia.
  - (* both positive *)
    destruct (ey ?= ex)%Z eqn:He; try discriminate.
    + apply Z.compare_eq in He; subst ey.
      rewrite Z.min_id. unfold shl_align. rewrite Z.sub_diag. cbn [fst].
      change (Pos.compare_cont Eq my mx) with (my ?= mx)%positive in Hcmp.
      destruct (my ?= mx)%positive eqn:Hm; try discriminate.
      assert (Hlt : (my < mx)%positive) by exact Hm. lia.
    + apply Z.compare_lt_iff in He.
      pose proof (@aligned_mantissa_le my mx ey ex Vy Vx He) as H.
      rewrite Z.min_comm in H. lia.
Qed.

Lemma SFdiv_not_negative (x : spec_float) (m : positive) (e : Z) :
  not_negative x -> not_negative (SF64div x (S754_finite false m e)).
Proof.
  unfold SF64div. destruct x as [sx|sx| |sx mx ex]; simpl; auto.
  - destruct sx; simpl; auto.
  - destruct sx; simpl; [contradiction|]. intros _.
    destruct (SFdiv_core_binary prec emax (Z.pos mx) ex (Z.pos m) e) as [[mz ez] lz].
    apply binary_round_aux_not_negative.
Qed.

Lemma zero_leb_not_negative (x : spec_float) :
  not_negative x -> x <> S754_nan -> SFleb (S754_zero false) x = true.
Proof.
  unfold SFleb. destruct x as [sx|sx| |sx mx ex]; simpl; auto; try congruence;
    destruct sx; simpl; auto; contradiction.
Qed.

(** The confidence of a threshold signal lies between 0 and 0.9. *)
Lemma clamped_excess_bounds (v t : float) :
  (t <? v)%float = true ->
  let c := Py.min 0.9 ((v - t) / 10.0)%float in
  (0 <=? c)%float = true /\ (c <=? 0.9)%float = true.
Proof.
  intros Hlt c. subst c. unfold Py.min.
  destruct ((v - t) / 10.0 <? 0.9)%float eqn:Hmin.
  - split; [|now apply ltb_leb].
    rewrite leb_spec. apply zero_leb_not_negative.
    + rewrite div_spec, sub_spec.
      change (Prim2SF 10.0) with (S754_finite false 5629499534213120 (-49)).
      apply SFdiv_not_negative, SFsub_not_negative; try apply Prim2SF_valid.
      now rewrite <- ltb_spec.
    + intros Hnan. rewrite ltb_spec, Hnan in Hmin. discriminate.
  - split; reflexivity.
Qed.

End FloatFacts.

(** *** Lists of insights built symbol by symbol *)

Lemma at_most_one_symbols (f : string -> list PyInsight) :
  (forall s, at_most_one_for s (f s)) ->
  forall symbols x, In x (map symbol (flat_map f symbols)) -> In x symbols.
Proof.
  intros Hf symbols x; induction symbols as [|s symbols IH]; simpl; [auto|].
  rewrite map_app, in_app_iff. intros [H|H]; [left|right; auto].
  destruct (Hf s) as [E|(i & E & Hi)]; rewrite E in H; simpl in H.
  - contradiction.
  - destruct H as [H|[]]. congruence.
Qed.

Lemma at_most_one_NoDup (f : string -> list PyInsight) :
  (forall s, at_most_one_for s (f s)) ->
  forall symbols, NoDup symbols -> NoDup (map symbol (flat_map f symbols)).
Proof.
  intros Hf symbols Hnd; induction Hnd as [|s symbols Hnotin Hnd IH]; simpl.
  - constructor.
  - rewrite map_app. destruct (Hf s) as [E|(i & E & Hi)]; rewrite E; simpl; [exact IH|].
    constructor; [|exact IH].
    rewrite Hi. intros Hin. apply Hnotin. revert Hin. now apply at_most_one_symbols.
Qed.

Lemma at_most_one_per_symbol (f : string -> list PyInsight) :
  (forall s, at_most_one_for s (f s)) ->
  forall symbols, Forall2 at_most_one_for symbols (map f symbols).
Proof.
  intros Hf symbols; induction symbols; simpl; constructor; auto.
Qed.

Lemma for_symbol_app (s : string) (l1 l2 : list PyInsight) :
  for_symbol s (l1 ++ l2) = for_symbol s l1 ++ for_symbol s l2.
Proof. unfold for_symbol. apply filter_app. Qed.

Lemma split_last2 {A : Type} (l : list A) :
  (2 <= len l)%Z -> exists earlier x y, l = earlier ++ [x; y].
Proof.
  unfold len. intros Hlen.
  destruct (exists_last (l := l)) as (l1 & y & ->).
  { intros ->. simpl in Hlen. lia. }
  rewrite length_app in Hlen; simpl in Hlen.
  destruct (exists_last (l := l1)) as (l2 & x & ->).
  { intros ->. simpl in Hlen. lia. }
  exists l2, x, y. now rewrite <- app_assoc.
Qed.

(* ===================================================================== *)
(** ** The RSI model and the moving-average cross model                    *)
(* ===================================================================== *)

Section SignalModels.

Variable get_price_history : string -> Z -> result (list float).
Variable calculate_rsi : list float -> Z -> result (list float).
Variable calculate_sma : list float -> Z -> result (list float).

Abbreviation rsi_try := (RSIAlphaModel.try_block get_price_history calculate_rsi).
Abbreviation rsi_emitted := (RSIAlphaModel.emitted get_price_history calculate_rsi).
Abbreviation rsi_generate := (RSIAlphaModel.generate_insights get_price_history calculate_rsi).
Abbreviation rsi_raises := (RSIAlphaModel.collaborator_raises get_price_history calculate_rsi).
Abbreviation ma_try := (MovingAverageCrossAlphaModel.try_block get_price_history calculate_sma).
Abbreviation ma_emitted := (MovingAverageCrossAlphaModel.emitted get_price_history calculate_sma).
Abbreviation ma_generate :=
  (MovingAverageCrossAlphaModel.generate_insights get_price_history calculate_sma).
Abbreviation ma_raises :=
  (MovingAverageCrossAlphaModel.collaborator_raises get_price_history calculate_sma).

(** *** The loops only append *)

Lemma rsi_try_appends (self : RSIAlphaModel.t) (sym : string) (insights : list PyInsight) :
  rsi_try self sym insights =
  match rsi_try self sym [] with
  | Ok l => Ok (insights ++ l)
  | Raise e => Raise e
  end.
Proof.
  unfold RSIAlphaModel.try_block.
  destruct (get_price_history sym 50) as [prices|e]; simpl; [|reflexivity].
  destruct (len prices <? _)%Z; [now rewrite app_nil_r|].
  destruct (calculate_rsi prices _) as [[|r rs]|e]; simpl;
    [now rewrite app_nil_r| |reflexivity].
  destruct (getitem_neg (r :: rs) 1) as [latest|e]; simpl; [|reflexivity].
  destruct (_ <? latest)%float; [reflexivity|].
  destruct (latest <? _)%float; [reflexivity|now rewrite app_nil_r].
Qed.

Lemma rsi_body_appends (self : RSIAlphaModel.t) (sym : string) (insights : list PyInsight) :
  RSIAlphaModel.loop_body get_price_history calculate_rsi self sym insights
  = Ok (insights ++ rsi_emitted self sym).
Proof.
  unfold RSIAlphaModel.loop_body, RSIAlphaModel.emitted.
  rewrite rsi_try_appends.
  destruct (rsi_try self sym []); simpl; [reflexivity|now rewrite app_nil_r].
Qed.

Lemma rsi_generate_flat_map (self : RSIAlphaModel.t) (symbols : list string) :
  rsi_generate self symbols = Ok (flat_map (rsi_emitted self) symbols).
Proof.
  unfold RSIAlphaModel.generate_insights.
  now rewrite (for_each_appends (rsi_emitted self) _ (rsi_body_appends self)).
Qed.

Lemma ma_try_appends (self : MovingAverageCrossAlphaModel.t) (sym : string)
  (insights : list PyInsight) :
  ma_try self sym insights =
  match ma_try self sym [] with
  | Ok l => Ok (insights ++ l)
  | Raise e => Raise e
  end.
Proof.
  unfold MovingAverageCrossAlphaModel.try_block.
  destruct (get_price_history sym _) as [prices|e]; simpl; [|reflexivity].
  destruct (len prices <? _)%Z; [now rewrite app_nil_r|].
  destruct (calculate_sma prices (MovingAverageCrossAlphaModel.fast_period self))
    as [fast_ma|e]; simpl; [|reflexivity].
  destruct (calculate_sma prices (MovingAverageCrossAlphaModel.slow_period self))
    as [slow_ma|e]; simpl; [|reflexivity].
  destruct (_ || _)%bool; [now rewrite app_nil_r|].
  destruct (getitem_neg fast_ma 1) as [fc|e]; simpl; [|reflexivity].
  destruct (getitem_neg fast_ma 2) as [fp|e]; simpl; [|reflexivity].
  destruct (getitem_neg slow_ma 1) as [sc|e]; simpl; [|reflexivity].
  destruct (getitem_neg slow_ma 2) as [sp|e]; simpl; [|reflexivity].
  destruct (_ && _)%bool; [reflexivity|].
  destruct (_ && _)%bool; [reflexivity|now rewrite app_nil_r].
Qed.

Lemma ma_body_appends (self : MovingAverageCrossAlphaModel.t) (sym : string)
  (insights : list PyInsight) :
  MovingAverageCrossAlphaModel.loop_body get_price_history calculate_sma self sym insights
  = Ok (insights ++ ma_emitted self sym).
Proof.
  unfold MovingAverageCrossAlphaModel.loop_body, MovingAverageCrossAlphaModel.emitted.
  rewrite ma_try_appends.
  destruct (ma_try self sym []); simpl; [reflexivity|now rewrite app_nil_r].
Qed.

Lemma ma_generate_flat_map (self : MovingAverageCrossAlphaModel.t) (symbols : list string) :
  ma_generate self symbols = Ok (flat_map (ma_emitted self) symbols).
Proof.
  unfold MovingAverageCrossAlphaModel.generate_insights.
  now rewrite (for_each_appends (ma_emitted self) _ (ma_body_appends self)).
Qed.

(** *** What one symbol contributes *)

Lemma rsi_emitted_at_most_one (self : RSIAlphaModel.t) (sym : string) :
  at_most_one_for sym (rsi_emitted self sym).
Proof.
  unfold RSIAlphaModel.emitted, RSIAlphaModel.try_block, at_most_one_for.
  destruct (get_price_history sym 50) as [prices|e]; simpl; [|now left].
  destruct (len prices <? _)%Z; [now left|].
  destruct (calculate_rsi prices _) as [[|r rs]|e]; simpl; try (now left).
  destruct (getitem_neg (r :: rs) 1) as [latest|e]; simpl; [|now left].
  destruct (_ <? latest)%float; [right; eexists; split; reflexivity|].
  destruct (latest <? _)%float; [right; eexists; split; reflexivity|now left].
Qed.

Lemma ma_emitted_at_most_one (self : MovingAverageCrossAlphaModel.t) (sym : string) :
  at_most_one_for sym (ma_emitted self sym).
Proof.
  unfold MovingAverageCrossAlphaModel.emitted, MovingAverageCrossAlphaModel.try_block,
    at_most_one_for.
  destruct (get_price_history sym _) as [prices|e]; simpl; [|now left].
  destruct (len prices <? _)%Z; [now left|].
  destruct (calculate_sma prices (MovingAverageCrossAlphaModel.fast_period self))
    as [fast_ma|e]; simpl; [|now left].
  destruct (calculate_sma prices (MovingAverageCrossAlphaModel.slow_period self))
    as [slow_ma|e]; simpl; [|now left].
  destruct (_ || _)%bool; [now left|].
  destruct (getitem_neg fast_ma 1) as [fc|e]; simpl; [|now left].
  destruct (getitem_neg fast_ma 2) as [fp|e]; simpl; [|now left].
  destruct (getitem_neg slow_ma 1) as [sc|e]; simpl; [|now left].
  destruct (getitem_neg slow_ma 2) as [sp|e]; simpl; [|now left].
  destruct (_ && _)%bool; [right; eexists; split; reflexivity|].
  destruct (_ && _)%bool; [right; eexists; split; reflexivity|now left].
Qed.

(** With enough prices and a series that ends in [v], the RSI model emits
    what the two threshold tests decide, the overbought test first. *)
Lemma rsi_emitted_signal (self : RSIAlphaModel.t) (sym : string)
  (prices earlier : list float) (v : float) :
  get_price_history sym 50 = Ok prices ->
  (RSIAlphaModel.rsi_period self + 1 <= len prices)%Z ->
  calculate_rsi prices (RSIAlphaModel.rsi_period self) = Ok (earlier ++ [v]) ->
  rsi_emitted self sym =
  if (RSIAlphaModel.overbought self <? v)%float then
    [make_insight (RSIAlphaModel.name self) sym "Down"
       (Py.min 0.9 ((v - RSIAlphaModel.overbought self) / 10.0))%float]
  else if (v <? RSIAlphaModel.oversold self)%float then
    [make_insight (RSIAlphaModel.name self) sym "Up"
       (Py.min 0.9 ((RSIAlphaModel.oversold self - v) / 10.0))%float]
  else [].
Proof.
  intros Hp Hlen Hr.
  unfold RSIAlphaModel.emitted, RSIAlphaModel.try_block.
  rewrite Hp; simpl.
  replace (len prices <? _)%Z with false by (symmetry; apply Z.ltb_ge; lia).
  rewrite Hr; simpl.
  destruct (earlier ++ [v]) as [|r rs] eqn:E; [now destruct earlier|].
  rewrite <- E, getitem_neg_last; simpl.
  destruct (_ <? v)%float; [reflexivity|].
  now destruct (v <? _)%float.
Qed.

(** With enough prices and two series of at least two points, the cross
    model emits what the two crossing tests decide. *)
Lemma ma_emitted_signal (self : MovingAverageCrossAlphaModel.t) (sym : string)
  (prices fast_earlier slow_earlier : list float)
  (fast_prev fast_cur slow_prev slow_cur : float) :
  get_price_history sym
    (Z.max (MovingAverageCrossAlphaModel.fast_period self)
           (MovingAverageCrossAlphaModel.slow_period self) + 10) = Ok prices ->
  (MovingAverageCrossAlphaModel.slow_period self + 2 <= len prices)%Z ->
  calculate_sma prices (MovingAverageCrossAlphaModel.fast_period self)
    = Ok (fast_earlier ++ [fast_prev; fast_cur]) ->
  calculate_sma prices (MovingAverageCrossAlphaModel.slow_period self)
    = Ok (slow_earlier ++ [slow_prev; slow_cur]) ->
  ma_emitted self sym =
  if ((fast_prev <=? slow_prev)%float && (slow_cur <? fast_cur)%float)%bool then
    [make_insight (MovingAverageCrossAlphaModel.name self) sym "Up" 0.7%float]
  else if ((slow_prev <=? fast_prev)%float && (fast_cur <? slow_cur)%float)%bool then
    [make_insight (MovingAverageCrossAlphaModel.name self) sym "Down" 0.7%float]
  else [].
Proof.
  intros Hp Hlen Hf Hs.
  unfold MovingAverageCrossAlphaModel.emitted, MovingAverageCrossAlphaModel.try_block.
  rewrite Hp; simpl.
  replace (len prices <? _)%Z with false by (symmetry; apply Z.ltb_ge; lia).
  rewrite Hf; simpl. rewrite Hs; simpl.
  replace (len (fast_earlier ++ [fast_prev; fast_cur]) <? 2)%Z with false
    by (symmetry; apply Z.ltb_ge; rewrite len_app; unfold len; simpl; lia).
  replace (len (slow_earlier ++ [slow_prev; slow_cur]) <? 2)%Z with false
    by (symmetry; apply Z.ltb_ge; rewrite len_app; unfold len; simpl; lia).
  simpl.
  destruct (getitem_neg_last2 fast_earlier fast_prev fast_cur) as [-> ->].
  destruct (getitem_neg_last2 slow_earlier slow_prev slow_cur) as [-> ->].
  simpl.
  destruct (_ && _)%bool; [reflexivity|].
  now destruct (_ && _)%bool.
Qed.

(** A symbol on which a collaborator raises contributes nothing. *)
Lemma rsi_raises_emitted (self : RSIAlphaModel.t) (sym : string) :
  rsi_raises self sym -> rsi_emitted self sym = [].
Proof.
  unfold RSIAlphaModel.emitted, RSIAlphaModel.try_block.
  intros [[e He]|(prices & e & Hp & Hlen & He)].
  - now rewrite He.
  - rewrite Hp; simpl.
    replace (len prices <? _)%Z with false by (symmetry; apply Z.ltb_ge; lia).
    now rewrite He.
Qed.

Lemma ma_raises_emitted (self : MovingAverageCrossAlphaModel.t) (sym : string) :
  ma_raises self sym -> ma_emitted self sym = [].
Proof.
  unfold MovingAverageCrossAlphaModel.emitted, MovingAverageCrossAlphaModel.try_block.
  intros [[e He]|(prices & e & Hp & Hlen & [He|(fast_ma & Hf & He)])].
  - now rewrite He.
  - rewrite Hp; simpl.
    replace (len prices <? _)%Z with false by (symmetry; apply Z.ltb_ge; lia).
    now rewrite He.
  - rewrite Hp; simpl.
    replace (len prices <? _)%Z with false by (symmetry; apply Z.ltb_ge; lia).
    rewrite Hf; simpl. now rewrite He.
Qed.

(** Every confidence the RSI model assigns lies between 0 and 0.9. *)
Lemma rsi_emitted_confidence (self : RSIAlphaModel.t) (sym : string) (i : PyInsight) :
  In i (rsi_emitted self sym) ->
  exists c, confidence i = Some c
            /\ (0 <=? c)%float = true /\ (c <=? 0.9)%float = true.
Proof.
  unfold RSIAlphaModel.emitted, RSIAlphaModel.try_block.
  destruct (get_price_history sym 50) as [prices|e]; simpl; [|contradiction].
  destruct (len prices <? _)%Z; [contradiction|].
  destruct (calculate_rsi prices _) as [[|r rs]|e]; simpl; try contradiction.
  destruct (getitem_neg (r :: rs) 1) as [latest|e]; simpl; [|contradiction].
  destruct (_ <? latest)%float eqn:Hob.
  - intros [<-|[]]. eexists; split; [reflexivity|].
    now apply FloatFacts.clamped_excess_bounds.
  - destruct (latest <? _)%float eqn:Hos; [|contradiction].
    intros [<-|[]]. eexists; split; [reflexivity|].
    now apply FloatFacts.clamped_excess_bounds.
Qed.

(** *** The crossing rule of the moving-average model *)

(** C5.  A symbol with at least [slow_period + 2] prices and two averages
    ending in [(fast_prev, fast_cur)] and [(slow_prev, slow_cur)]
    contributes, at its place in the result, exactly one Up insight of
    confidence 0.7 when [fast_prev <= slow_prev] and [fast_cur > slow_cur];
    exactly one Down insight of confidence 0.7 when
    [fast_prev >= slow_prev] and [fast_cur < slow_cur]; and nothing
    otherwise.  Equal previous values with diverging current values are a
    cross. *)
Theorem ma_cross_rule (self : MovingAverageCrossAlphaModel.t) (sym : string)
  (prices fast_earlier slow_earlier : list float)
  (fast_prev fast_cur slow_prev slow_cur : float) (pre post : list string) :
  get_price_history sym
    (Z.max (MovingAverageCrossAlphaModel.fast_period self)
           (MovingAverageCrossAlphaModel.slow_period self) + 10) = Ok prices ->
  (MovingAverageCrossAlphaModel.slow_period self + 2 <= len prices)%Z ->
  calculate_sma prices (MovingAverageCrossAlphaModel.fast_period self)
    = Ok (fast_earlier ++ [fast_prev; fast_cur]) ->
  calculate_sma prices (MovingAverageCrossAlphaModel.slow_period self)
    = Ok (slow_earlier ++ [slow_prev; slow_cur]) ->
  exists out_pre out_post,
    ma_generate self pre = Ok out_pre
    /\ ma_generate self post = Ok out_post
    /\ ((fast_prev <=? slow_prev)%float = true ->
        (slow_cur <? fast_cur)%float = true ->
        ma_generate self (pre ++ sym :: post) =
        Ok (out_pre
            ++ [mkInsight sym "Up" (Some 0.7%float) (Some 1%float)
                  (Some (MovingAverageCrossAlphaModel.name self))]
            ++ out_post))
    /\ ((slow_prev <=? fast_prev)%float = true ->
        (fast_cur <? slow_cur)%float = true ->
        ma_generate self (pre ++ sym :: post) =
        Ok (out_pre
            ++ [mkInsight sym "Down" (Some 0.7%float) (Some 1%float)
                  (Some (MovingAverageCrossAlphaModel.name self))]
            ++ out_post))
    /\ (((fast_prev <=? slow_prev)%float && (slow_cur <? fast_cur)%float)%bool = false ->
        ((slow_prev <=? fast_prev)%float && (fast_cur <? slow_cur)%float)%bool = false ->
        ma_generate self (pre ++ sym :: post) = Ok (out_pre ++ out_post))
    /\ ((fast_prev =? slow_prev)%float = true ->
        ((slow_cur <? fast_cur)%float = true ->
         ma_emitted self sym
         = [mkInsight sym "Up" (Some 0.7%float) (Some 1%float)
                  (Some (MovingAverageCrossAlphaModel.name self))])
        /\ ((fast_cur <? slow_cur)%float = true ->
            ma_emitted self sym
            = [mkInsight sym "Down" (Some 0.7%float) (Some 1%float)
                  (Some (MovingAverageCrossAlphaModel.name self))])).
Proof.
  intros Hp Hlen Hf Hs.
  exists (flat_map (ma_emitted self) pre), (flat_map (ma_emitted self) post).
  pose proof (ma_emitted_signal self sym prices fast_earlier slow_earlier fast_prev fast_cur slow_prev slow_cur Hp Hlen Hf Hs) as Hsig.
  repeat split; try apply ma_generate_flat_map.
  - intros H1 H2. rewrite H1, H2 in Hsig.
    rewrite ma_generate_flat_map, flat_map_app; simpl. now rewrite Hsig.
  - intros H1 H2. rewrite H1, H2, (FloatFacts.ltb_asym _ _ H2), andb_false_r in Hsig.
    rewrite ma_generate_flat_map, flat_map_app; simpl. now rewrite Hsig.
  - intros H1 H2. rewrite H1, H2 in Hsig.
    rewrite ma_generate_flat_map, flat_map_app; simpl. now rewrite Hsig.
  - intros H2. apply FloatFacts.eqb_leb in H. destruct H as [H1 _].
    now rewrite H1, H2 in Hsig.
  - intros H2. apply FloatFacts.eqb_leb in H. destruct H as [_ H1].
    now rewrite H1, H2, (FloatFacts.ltb_asym _ _ H2), andb_false_r in Hsig.
Qed.

(** *** Failures of the collaborators *)

(** The [try] block raises exactly when a collaborator does. *)
Lemma rsi_try_raises_iff (self : RSIAlphaModel.t) (sym : string) (insights : list PyInsight) :
  (exists e, rsi_try self sym insights = Raise e) <-> rsi_raises self sym.
Proof.
  unfold RSIAlphaModel.try_block, RSIAlphaModel.collaborator_raises.
  destruct (get_price_history sym 50) as [prices|e]; simpl.
  2:{ split; [intros _; left; now exists e|intros _; now exists e]. }
  destruct (len prices <? _)%Z eqn:Hlen.
  { split; [intros [e He]; discriminate|].
    intros [[e He]|(p & e & Hp & Hl & _)]; [discriminate|].
    injection Hp as <-. apply Z.ltb_lt in Hlen. lia. }
  apply Z.ltb_ge in Hlen.
  destruct (calculate_rsi prices _) as [[|r rs]|e] eqn:Hr; simpl.
  - split; [intros [e He]; discriminate|].
    intros [[e He]|(p & e & Hp & _ & He)]; [discriminate|].
    injection Hp as <-. congruence.
  - destruct (exists_last (l := r :: rs)) as (earlier & v & ->); [discriminate|].
    rewrite getitem_neg_last; simpl.
    split.
    + intros [e He].
      destruct (_ <? v)%float; [discriminate|].
      destruct (v <? _)%float; discriminate.
    + intros [[e He]|(p & e & Hp & _ & He)]; [discriminate|].
      injection Hp as <-. congruence.
  - split; [|intros _; now exists e].
    intros _. right. now exists prices, e.
Qed.

Lemma ma_try_raises_iff (self : MovingAverageCrossAlphaModel.t) (sym : string)
  (insights : list PyInsight) :
  (exists e, ma_try self sym insights = Raise e) <-> ma_raises self sym.
Proof.
  unfold MovingAverageCrossAlphaModel.try_block,
    MovingAverageCrossAlphaModel.collaborator_raises.
  cbv zeta.
  destruct (get_price_history sym _) as [prices|e]; simpl.
  2:{ split; [intros _; left; now exists e|intros _; now exists e]. }
  destruct (len prices <? _)%Z eqn:Hlen.
  { split; [intros [e He]; discriminate|].
    intros [[e He]|(p & e & Hp & Hl & _)]; [discriminate|].
    injection Hp as <-. apply Z.ltb_lt in Hlen. lia. }
  apply Z.ltb_ge in Hlen.
  destruct (calculate_sma prices (MovingAverageCrossAlphaModel.fast_period self))
    as [fast_ma|e] eqn:Hf; simpl.
  2:{ split; [|intros _; now exists e].
      intros _. right. exists prices, e. auto. }
  destruct (calculate_sma prices (MovingAverageCrossAlphaModel.slow_period self))
    as [slow_ma|e] eqn:Hs; simpl.
  2:{ split; [|intros _; now exists e].
      intros _. right. exists prices, e. repeat split; auto.
      right. now exists fast_ma. }
  split.
  - intros [e He]. exfalso.
    destruct (len fast_ma <? 2)%Z eqn:H1; [discriminate|].
    destruct (len slow_ma <? 2)%Z eqn:H2; [discriminate|].
    apply Z.ltb_ge in H1, H2.
    destruct (split_last2 fast_ma H1) as (fe & fp & fc & ->).
    destruct (split_last2 slow_ma H2) as (se & sp & sc & ->).
    simpl in He.
    destruct (getitem_neg_last2 fe fp fc) as [E1 E2].
    destruct (getitem_neg_last2 se sp sc) as [E3 E4].
    rewrite E1, E2, E3, E4 in He; simpl in He.
    destruct (_ && _)%bool; [discriminate|].
    destruct (_ && _)%bool; discriminate.
  - intros [[e He]|(p & e & Hp & _ & [He|(f & Hf' & He)])]; try discriminate;
      injection Hp as <-; congruence.
Qed.

(** C6.  When a collaborator raises on a symbol, the call returns, and it
    returns what it returns on the list without that symbol; this for the
    RSI model and for the cross model.  Neither call ever raises. *)
Theorem collaborator_failure_isolated :
  (forall (self : RSIAlphaModel.t) (pre : list string) (sym : string) (post : list string),
      rsi_raises self sym ->
      exists out,
        rsi_generate self (pre ++ sym :: post) = Ok out
        /\ rsi_generate self (pre ++ post) = Ok out)
  /\ (forall (self : MovingAverageCrossAlphaModel.t)
             (pre : list string) (sym : string) (post : list string),
         ma_raises self sym ->
         exists out,
           ma_generate self (pre ++ sym :: post) = Ok out
           /\ ma_generate self (pre ++ post) = Ok out)
  /\ (forall (self : RSIAlphaModel.t) (symbols : list string),
         exists out, rsi_generate self symbols = Ok out)
  /\ (forall (self : MovingAverageCrossAlphaModel.t) (symbols : list string),
         exists out, ma_generate self symbols = Ok out).
Proof.
  split; [|split; [|split]].
  - intros self pre sym post Hraise.
    exists (flat_map (rsi_emitted self) (pre ++ post)).
    rewrite !rsi_generate_flat_map, !flat_map_app; simpl.
    now rewrite (rsi_raises_emitted self sym Hraise).
  - intros self pre sym post Hraise.
    exists (flat_map (ma_emitted self) (pre ++ post)).
    rewrite !ma_generate_flat_map, !flat_map_app; simpl.
    now rewrite (ma_raises_emitted self sym Hraise).
  - intros self symbols. eexists. apply rsi_generate_flat_map.
  - intros self symbols. eexists. apply ma_generate_flat_map.
Qed.

(** *** Order of the result *)

(** C10.  The result is the concatenation, in the order of the symbol
    list, of what each occurrence of a symbol contributes: nothing, or one
    insight for that symbol.  So the insight of an earlier occurrence comes
    before the insight of a later one. *)
Theorem insights_follow_symbol_order
  (rsi : RSIAlphaModel.t) (ma : MovingAverageCrossAlphaModel.t) (symbols : list string) :
  (exists per_symbol,
      Forall2 at_most_one_for symbols per_symbol
      /\ rsi_generate rsi symbols = Ok (List.concat per_symbol))
  /\ (exists per_symbol,
         Forall2 at_most_one_for symbols per_symbol
         /\ ma_generate ma symbols = Ok (List.concat per_symbol)).
Proof.
  split.
  - exists (map (rsi_emitted rsi) symbols). split.
    + apply at_most_one_per_symbol, rsi_emitted_at_most_one.
    + rewrite rsi_generate_flat_map. now rewrite flat_map_concat_map.
  - exists (map (ma_emitted ma) symbols). split.
    + apply at_most_one_per_symbol, ma_emitted_at_most_one.
    + rewrite ma_generate_flat_map. now rewrite flat_map_concat_map.
Qed.

(** On a list without repeated symbols neither model emits two insights
    for one symbol. *)
Lemma signal_models_NoDup
  (rsi : RSIAlphaModel.t) (ma : MovingAverageCrossAlphaModel.t) (symbols : list string) :
  NoDup symbols ->
  (forall out, rsi_generate rsi symbols = Ok out -> NoDup (map symbol out))
  /\ (forall out, ma_generate ma symbols = Ok out -> NoDup (map symbol out)).
Proof.
  intros Hnd. split; intros out Hgen.
  - rewrite rsi_generate_flat_map in Hgen. injection Hgen as <-.
    apply at_most_one_NoDup; [apply rsi_emitted_at_most_one|exact Hnd].
  - rewrite ma_generate_flat_map in Hgen. injection Hgen as <-.
    apply at_most_one_NoDup; [apply ma_emitted_at_most_one|exact Hnd].
Qed.

End SignalModels.

(* ===================================================================== *)
(** ** The composite model                                                 *)
(* ===================================================================== *)

Module CompositeFacts.

Import CompositeAlphaModel.

(** *** The dictionary of insights by symbol *)

Lemma lookup_dict_append (d : dict) (k : string) (i : PyInsight) (s : string) :
  lookup (dict_append d k i) s
  = if String.eqb k s then lookup d s ++ [i] else lookup d s.
Proof.
  induction d as [|[k' v] d IH]; simpl.
  - now destruct (String.eqb k s).
  - destruct (String.eqb_spec k' k) as [->|Hk]; simpl.
    + now destruct (String.eqb k s).
    + rewrite IH. destruct (String.eqb_spec k' s) as [->|Hs]; [|reflexivity].
      destruct (String.eqb_spec k s) as [->|_]; congruence.
Qed.

Lemma keys_dict_append (d : dict) (k : string) (i : PyInsight) (x : string) :
  In x (keys (dict_append d k i)) <-> x = k \/ In x (keys d).
Proof.
  unfold keys. induction d as [|[k' v] d IH]; simpl.
  - intuition.
  - destruct (String.eqb_spec k' k) as [->|Hk]; simpl; intuition.
Qed.

Lemma keys_dict_append_NoDup (d : dict) (k : string) (i : PyInsight) :
  NoDup (keys d) -> NoDup (keys (dict_append d k i)).
Proof.
  unfold keys. induction d as [|[k' v] d IH]; simpl; intros Hnd.
  - constructor; [intros []|constructor].
  - inversion Hnd as [|? ? Hnotin Hnd']; subst.
    destruct (String.eqb_spec k' k) as [->|Hk]; simpl; [now constructor|].
    constructor; [|now apply IH].
    intros Hin. apply (keys_dict_append d k i k') in Hin.
    destruct Hin as [->|Hin]; [now apply Hk|now apply Hnotin].
Qed.

Lemma grouping_from (all_insights : list PyInsight) (d : dict) :
  let d' := fold_left (fun d i => dict_append d (symbol i) i) all_insights d in
  (NoDup (keys d) -> NoDup (keys d'))
  /\ (forall s, lookup d' s = lookup d s ++ for_symbol s all_insights).
Proof.
  revert d; induction all_insights as [|i rest IH]; intros d; simpl.
  - split; [auto|]. intros s. now rewrite app_nil_r.
  - destruct (IH (dict_append d (symbol i) i)) as [Hnd Hlk]. split.
    + intros H. now apply Hnd, keys_dict_append_NoDup.
    + intros s. rewrite Hlk, lookup_dict_append.
      destruct (String.eqb (symbol i) s); simpl; [now rewrite <- app_assoc|reflexivity].
Qed.

(** The dictionary has one key per symbol, and under it the insights of
    that symbol in the order in which they were collected. *)
Lemma group_by_symbol_spec (all_insights : list PyInsight) :
  NoDup (keys (group_by_symbol all_insights))
  /\ (forall s, lookup (group_by_symbol all_insights) s = for_symbol s all_insights).
Proof.
  destruct (grouping_from all_insights []) as [Hnd Hlk]. split.
  - apply Hnd. constructor.
  - intros s. apply Hlk.
Qed.

Lemma lookup_missing (d : dict) (s : string) : ~ In s (keys d) -> lookup d s = [].
Proof.
  unfold keys. induction d as [|[k v] d IH]; simpl; [reflexivity|].
  intros Hnotin. destruct (String.eqb_spec k s) as [->|_]; [|apply IH]; tauto.
Qed.

(** *** The consensus loop *)

Lemma consensus_step_appends (n : string) (acc : list PyInsight)
  (item : string * list PyInsight) :
  consensus_step n acc item = acc ++ emitted n item.
Proof.
  unfold emitted, consensus_step. destruct item as [sym g].
  destruct (2 <=? len g)%Z; [|now rewrite app_nil_r].
  destruct (_ <? _)%Z; [reflexivity|].
  destruct (_ <? _)%Z; [reflexivity|now rewrite app_nil_r].
Qed.

Lemma consensus_flat_map (n : string) (d : dict) :
  consensus n d = flat_map (emitted n) d.
Proof.
  unfold consensus.
  enough (H : forall acc, fold_left (consensus_step n) d acc = acc ++ flat_map (emitted n) d)
    by apply (H []).
  induction d as [|item d IH]; intros acc; simpl.
  - now rewrite app_nil_r.
  - now rewrite IH, consensus_step_appends, <- app_assoc.
Qed.

Lemma emitted_at_most_one (n k : string) (g : list PyInsight) :
  at_most_one_for k (emitted n (k, g)).
Proof.
  unfold emitted, consensus_step, at_most_one_for.
  destruct (2 <=? len g)%Z; [|now left].
  destruct (_ <? _)%Z; [right; eexists; split; reflexivity|].
  destruct (_ <? _)%Z; [right; eexists; split; reflexivity|now left].
Qed.

Lemma emitted_empty_group (n s : string) : emitted n (s, []) = [].
Proof. reflexivity. Qed.

Lemma for_symbol_emitted (n k s : string) (g : list PyInsight) :
  for_symbol s (emitted n (k, g)) = if String.eqb k s then emitted n (k, g) else [].
Proof.
  destruct (emitted_at_most_one n k g) as [->|(i & -> & Hi)]; simpl.
  - now destruct (String.eqb k s).
  - now rewrite Hi.
Qed.

(** The composite insights for one symbol are decided by the group of
    that symbol alone. *)
Lemma for_symbol_consensus (n : string) (d : dict) (s : string) :
  NoDup (keys d) ->
  for_symbol s (flat_map (emitted n) d) = emitted n (s, lookup d s).
Proof.
  unfold keys. induction d as [|[k v] d IH]; intros Hnd.
  - reflexivity.
  - cbn [flat_map lookup map fst] in *.
    inversion Hnd as [|? ? Hnotin Hnd']; subst.
    rewrite for_symbol_app, for_symbol_emitted, (IH Hnd').
    destruct (String.eqb_spec k s) as [->|Hk]; [|reflexivity].
    rewrite (lookup_missing d s Hnotin), emitted_empty_group. apply app_nil_r.
Qed.

Lemma consensus_symbols (n : string) (d : dict) (x : string) :
  In x (map symbol (flat_map (emitted n) d)) -> In x (keys d).
Proof.
  unfold keys. induction d as [|[k v] d IH]; cbn [flat_map map fst]; [auto|].
  rewrite map_app, in_app_iff. intros [H|H]; [left|right; auto].
  destruct (emitted_at_most_one n k v) as [E|(i & E & Hi)]; rewrite E in H; simpl in H.
  - contradiction.
  - destruct H as [H|[]]. congruence.
Qed.

Lemma consensus_NoDup (n : string) (d : dict) :
  NoDup (keys d) -> NoDup (map symbol (consensus n d)).
Proof.
  rewrite consensus_flat_map. unfold keys.
  induction d as [|[k v] d IH]; cbn [flat_map map fst]; intros Hnd; [constructor|].
  inversion Hnd as [|? ? Hnotin Hnd']; subst.
  rewrite map_app.
  destruct (emitted_at_most_one n k v) as [E|(i & E & Hi)]; rewrite E; simpl; [auto|].
  constructor; [|auto].
  rewrite Hi. intros Hin. apply Hnotin. now apply (consensus_symbols n d).
Qed.

(** What a call returns, symbol by symbol. *)
Lemma generate_per_symbol (self : t) (symbols : list string) (all_insights : list PyInsight) :
  collect (models self) symbols = Ok all_insights ->
  exists out,
    generate_insights self symbols = Ok out
    /\ NoDup (map symbol out)
    /\ forall s, for_symbol s out = emitted (name self) (s, for_symbol s all_insights).
Proof.
  intros Hc. unfold generate_insights. rewrite Hc; simpl.
  destruct (group_by_symbol_spec all_insights) as [Hnd Hlk].
  eexists; split; [reflexivity|]. split.
  - now apply consensus_NoDup.
  - intros s. rewrite consensus_flat_map, for_symbol_consensus by exact Hnd.
    now rewrite Hlk.
Qed.

(** *** Collecting the insights of the sub-models *)

Lemma collect_from (ms : list BasePythonAlphaModel.t) (symbols : list string)
  (acc all_insights : list PyInsight) :
  for_each
    (fun model all_insights =>
       model_insights <- BasePythonAlphaModel.generate_insights model symbols ;;
       Ok (all_insights ++ model_insights))
    ms acc = Ok all_insights
  <-> exists outputs,
        Forall2 (fun m l => BasePythonAlphaModel.generate_insights m symbols = Ok l)
                ms outputs
        /\ all_insights = acc ++ List.concat outputs.
Proof.
  revert acc; induction ms as [|m ms IH]; intros acc; simpl.
  - split.
    + intros [= <-]. exists []. split; [constructor|now rewrite app_nil_r].
    + intros (outputs & HF & ->). inversion HF; subst. simpl. now rewrite app_nil_r.
  - destruct (BasePythonAlphaModel.generate_insights m symbols) as [l|e] eqn:Hm; simpl.
    + rewrite IH. split.
      * intros (outputs & HF & ->). exists (l :: outputs). split; [now constructor|].
        simpl. now rewrite app_assoc.
      * intros (outputs & HF & ->). inversion HF as [|? l' ? outputs' Hl HF']; subst.
        assert (l' = l) as -> by congruence.
        exists outputs'. split; [exact HF'|]. simpl. now rewrite app_assoc.
    + split; [discriminate|].
      intros (outputs & HF & _). inversion HF; subst. congruence.
Qed.

(** The collected list is the concatenation of the outputs of the
    sub-models, in the order of the sub-models. *)
Lemma collect_spec (ms : list BasePythonAlphaModel.t) (symbols : list string)
  (all_insights : list PyInsight) :
  collect ms symbols = Ok all_insights
  <-> exists outputs,
        Forall2 (fun m l => BasePythonAlphaModel.generate_insights m symbols = Ok l)
                ms outputs
        /\ all_insights = List.concat outputs.
Proof. apply (collect_from ms symbols [] all_insights). Qed.

Lemma Permutation_concat {A : Type} (ls ls' : list (list A)) :
  Permutation ls ls' -> Permutation (List.concat ls) (List.concat ls').
Proof.
  induction 1 as [|x l l' _ IH|x y l|l l' l'' _ IH1 _ IH2]; simpl.
  - constructor.
  - now apply Permutation_app_head.
  - rewrite !app_assoc. apply Permutation_app_tail, Permutation_app_comm.
  - now transitivity (List.concat l').
Qed.

Lemma Permutation_filter {A : Type} (p : A -> bool) (l l' : list A) :
  Permutation l l' -> Permutation (filter p l) (filter p l').
Proof.
  induction 1 as [|x l l' _ IH|x y l|l l' l'' _ IH1 _ IH2]; simpl.
  - constructor.
  - destruct (p x); [now constructor|exact IH].
  - destruct (p x), (p y); try reflexivity. constructor.
  - now transitivity (filter p l').
Qed.

Lemma len_Permutation {A : Type} (l l' : list A) : Permutation l l' -> len l = len l'.
Proof. intros H. unfold len. now rewrite (Permutation_length H). Qed.

(** Sub-models asked in another order collect the same insights in
    another order. *)
Lemma collect_Permutation (ms ms' : list BasePythonAlphaModel.t) (symbols : list string)
  (all_insights : list PyInsight) :
  Permutation ms ms' ->
  collect ms symbols = Ok all_insights ->
  exists all_insights',
    collect ms' symbols = Ok all_insights' /\ Permutation all_insights all_insights'.
Proof.
  intros Hperm Hc. apply collect_spec in Hc. destruct Hc as (outputs & HF & ->).
  destruct (Permutation_Forall2 Hperm HF) as (outputs' & Hperm' & HF').
  exists (List.concat outputs'). split.
  - apply collect_spec. now exists outputs'.
  - now apply Permutation_concat.
Qed.

(** What the consensus loop appends for a group, case by case. *)
Lemma emitted_cases (n s : string) (g : list PyInsight) :
  ((len g < 2)%Z \/ len (filter is_up g) = len (filter is_down g) ->
   emitted n (s, g) = [])
  /\ ((2 <= len g)%Z -> (len (filter is_down g) < len (filter is_up g))%Z ->
      emitted n (s, g)
      = [mkInsight s "Up" (Some (avg_confidence (filter is_up g))) (Some 1%float) (Some n)])
  /\ ((2 <= len g)%Z -> (len (filter is_up g) < len (filter is_down g))%Z ->
      emitted n (s, g)
      = [mkInsight s "Down" (Some (avg_confidence (filter is_down g))) (Some 1%float)
           (Some n)]).
Proof.
  unfold emitted, consensus_step. repeat split.
  - intros [Hq|Htie].
    + now replace (2 <=? len g)%Z with false by (symmetry; apply Z.leb_gt; lia).
    + rewrite Htie, Z.ltb_irrefl. now destruct (2 <=? len g)%Z.
  - intros Hq Hmaj.
    replace (2 <=? len g)%Z with true by (symmetry; apply Z.leb_le; lia).
    now replace (_ <? _)%Z with true by (symmetry; apply Z.ltb_lt; lia).
  - intros Hq Hmaj.
    replace (2 <=? len g)%Z with true by (symmetry; apply Z.leb_le; lia).
    replace (len (filter is_down g) <? len (filter is_up g))%Z with false
      by (symmetry; apply Z.ltb_ge; lia).
    now replace (_ <? _)%Z with true by (symmetry; apply Z.ltb_lt; lia).
Qed.

(** The average of at most two insights does not depend on their order. *)
Lemma avg_confidence_small (xs ys : list PyInsight) :
  Permutation xs ys -> (len xs <= 2)%Z -> avg_confidence xs = avg_confidence ys.
Proof.
  intros Hperm Hlen. unfold avg_confidence.
  rewrite <- (len_Permutation _ _ Hperm). f_equal.
  destruct xs as [|a [|b [|c xs]]].
  - apply Permutation_nil in Hperm. now subst.
  - apply Permutation_length_1_inv in Hperm. now subst.
  - apply Permutation_length_2_inv in Hperm. destruct Hperm as [->| ->]; [reflexivity|].
    unfold Py.sum; simpl. apply FloatFacts.add_zero_swap.
  - unfold len in Hlen. simpl in Hlen. lia.
Qed.

Lemma emitted_Permutation_small (n s : string) (g g' : list PyInsight) :
  Permutation g g' ->
  (len (filter is_up g) <= 2)%Z -> (len (filter is_down g) <= 2)%Z ->
  emitted n (s, g) = emitted n (s, g').
Proof.
  intros Hperm Hup Hdown. unfold emitted, consensus_step.
  rewrite <- (len_Permutation _ _ Hperm).
  rewrite <- (len_Permutation _ _ (Permutation_filter is_up _ _ Hperm)).
  rewrite <- (len_Permutation _ _ (Permutation_filter is_down _ _ Hperm)).
  rewrite (avg_confidence_small _ _ (Permutation_filter is_up _ _ Hperm) Hup).
  now rewrite (avg_confidence_small _ _ (Permutation_filter is_down _ _ Hperm) Hdown).
Qed.

(** The code's average is the arithmetic mean as long as no confidence of
    the group is a zero. *)
Lemma avg_confidence_mean (xs : list PyInsight) :
  no_zero_confidence xs -> avg_confidence xs = mean_confidence xs.
Proof.
  intros Hnz. unfold avg_confidence, mean_confidence. f_equal. f_equal.
  induction Hnz as [|i xs Hi _ IH]; simpl; [reflexivity|].
  f_equal; [|exact IH].
  unfold or_else. destruct (confidence i) as [c|]; [|reflexivity].
  now rewrite (Hi c eq_refl).
Qed.

End CompositeFacts.

(** *** Quorum, ties and majorities *)

(** C2.  A symbol with fewer than two collected insights gets no composite
    insight, whatever the directions and confidences. *)
Theorem quorum_not_met (self : CompositeAlphaModel.t) (symbols : list string)
  (all_insights : list PyInsight) (s : string) :
  CompositeAlphaModel.collect (CompositeAlphaModel.models self) symbols = Ok all_insights ->
  (len (for_symbol s all_insights) < 2)%Z ->
  exists out,
    CompositeAlphaModel.generate_insights self symbols = Ok out
    /\ for_symbol s out = []
    /\ forall i, In i out -> symbol i <> s.
Proof.
  intros Hc Hlen.
  destruct (CompositeFacts.generate_per_symbol self symbols all_insights Hc)
    as (out & Hgen & _ & Hper).
  assert (Hnone : for_symbol s out = []).
  { rewrite Hper. unfold CompositeAlphaModel.emitted, CompositeAlphaModel.consensus_step.
    now replace (2 <=? _)%Z with false by (symmetry; apply Z.leb_gt; lia). }
  exists out. repeat split; [exact Hgen|exact Hnone|].
  intros i Hin Hs.
  assert (Hi : In i (for_symbol s out)).
  { unfold for_symbol. apply filter_In. split; [exact Hin|]. now apply String.eqb_eq. }
  now rewrite Hnone in Hi.
Qed.

(** C3.  A symbol with at least two collected insights, as many Up as
    Down, gets no composite insight. *)
Theorem tie_is_dropped (self : CompositeAlphaModel.t) (symbols : list string)
  (all_insights : list PyInsight) (s : string) :
  CompositeAlphaModel.collect (CompositeAlphaModel.models self) symbols = Ok all_insights ->
  (2 <= len (for_symbol s all_insights))%Z ->
  len (filter CompositeAlphaModel.is_up (for_symbol s all_insights))
  = len (filter CompositeAlphaModel.is_down (for_symbol s all_insights)) ->
  exists out,
    CompositeAlphaModel.generate_insights self symbols = Ok out
    /\ for_symbol s out = []
    /\ forall i, In i out -> symbol i <> s.
Proof.
  intros Hc Hlen Htie.
  destruct (CompositeFacts.generate_per_symbol self symbols all_insights Hc)
    as (out & Hgen & _ & Hper).
  assert (Hnone : for_symbol s out = []).
  { rewrite Hper. unfold CompositeAlphaModel.emitted, CompositeAlphaModel.consensus_step.
    rewrite Htie, Z.ltb_irrefl. now destruct (2 <=? _)%Z. }
  exists out. repeat split; [exact Hgen|exact Hnone|].
  intros i Hin Hs.
  assert (Hi : In i (for_symbol s out)).
  { unfold for_symbol. apply filter_In. split; [exact Hin|]. now apply String.eqb_eq. }
  now rewrite Hnone in Hi.
Qed.

(** X1, the part of C1 that holds.  A symbol with at least two collected
    insights and a strict majority gets exactly one composite insight, in the direction of the majority,
    of magnitude 1.0, from ["Composite_Alpha_Model"]; its confidence is
    the code's average over the majority, which is the arithmetic mean
    (a missing confidence counting as 0.5) when no confidence of the
    majority is a zero. *)
Theorem majority_consensus (ms : list BasePythonAlphaModel.t) (self : CompositeAlphaModel.t)
  (symbols : list string) (all_insights : list PyInsight) (s : string) :
  CompositeAlphaModel.init ms = Ok self ->
  CompositeAlphaModel.collect ms symbols = Ok all_insights ->
  (2 <= len (for_symbol s all_insights))%Z ->
  let up := filter CompositeAlphaModel.is_up (for_symbol s all_insights) in
  let down := filter CompositeAlphaModel.is_down (for_symbol s all_insights) in
  exists out,
    CompositeAlphaModel.generate_insights self symbols = Ok out
    /\ ((len down < len up)%Z ->
        for_symbol s out =
        [mkInsight s "Up" (Some (CompositeAlphaModel.avg_confidence up))
           (Some 1%float) (Some "Composite_Alpha_Model")]
        /\ (no_zero_confidence up ->
            CompositeAlphaModel.avg_confidence up = mean_confidence up))
    /\ ((len up < len down)%Z ->
        for_symbol s out =
        [mkInsight s "Down" (Some (CompositeAlphaModel.avg_confidence down))
           (Some 1%float) (Some "Composite_Alpha_Model")]
        /\ (no_zero_confidence down ->
            CompositeAlphaModel.avg_confidence down = mean_confidence down)).
Proof.
  intros Hinit Hc Hlen up down. injection Hinit as <-.
  destruct (CompositeFacts.generate_per_symbol
              (CompositeAlphaModel.mk "Composite_Alpha_Model" ms) symbols all_insights Hc)
    as (out & Hgen & _ & Hper).
  exists out. split; [exact Hgen|].
  assert (Hq : (2 <=? len (for_symbol s all_insights))%Z = true) by now apply Z.leb_le.
  split; intros Hmaj; (split; [|apply CompositeFacts.avg_confidence_mean]);
    rewrite Hper; unfold CompositeAlphaModel.emitted, CompositeAlphaModel.consensus_step;
    rewrite Hq; fold up; fold down.
  - now replace (len down <? len up)%Z with true by (symmetry; now apply Z.ltb_lt).
  - replace (len down <? len up)%Z with false by (symmetry; apply Z.ltb_ge; lia).
    now replace (len up <? len down)%Z with true by (symmetry; now apply Z.ltb_lt).
Qed.

(** C9, amended.  Asked in another order, the sub-models give the same
    insights in another order.  For every symbol the two groups, their Up
    parts and their Down parts are permutations of each other; a composite
    insight is emitted in the one order exactly when it is in the other,
    with the same direction, the magnitude 1.0 and the same source, and
    its confidence is the code's average over the majority part of the
    symbol's own group, added up in the order of collection.  The two
    results for the symbol are equal whenever neither its Up nor its Down
    insights are more than two.  Two calls on sub-models that answer alike
    return the same result. *)
Theorem consensus_up_to_summation_order :
  (forall (self self' : CompositeAlphaModel.t) (symbols : list string)
          (all_insights : list PyInsight),
      CompositeAlphaModel.name self = CompositeAlphaModel.name self' ->
      Permutation (CompositeAlphaModel.models self) (CompositeAlphaModel.models self') ->
      CompositeAlphaModel.collect (CompositeAlphaModel.models self) symbols
      = Ok all_insights ->
      exists all_insights' out out',
        CompositeAlphaModel.collect (CompositeAlphaModel.models self') symbols
        = Ok all_insights'
        /\ Permutation all_insights all_insights'
        /\ CompositeAlphaModel.generate_insights self symbols = Ok out
        /\ CompositeAlphaModel.generate_insights self' symbols = Ok out'
        /\ forall s,
            let g := for_symbol s all_insights in
            let g' := for_symbol s all_insights' in
            let up := filter CompositeAlphaModel.is_up g in
            let up' := filter CompositeAlphaModel.is_up g' in
            let down := filter CompositeAlphaModel.is_down g in
            let down' := filter CompositeAlphaModel.is_down g' in
            Permutation g g' /\ Permutation up up' /\ Permutation down down'
            /\ ((len g < 2)%Z \/ len up = len down ->
                for_symbol s out = [] /\ for_symbol s out' = [])
            /\ ((2 <= len g)%Z -> (len down < len up)%Z ->
                for_symbol s out
                = [mkInsight s "Up" (Some (CompositeAlphaModel.avg_confidence up))
                     (Some 1%float) (Some (CompositeAlphaModel.name self))]
                /\ for_symbol s out'
                   = [mkInsight s "Up" (Some (CompositeAlphaModel.avg_confidence up'))
                        (Some 1%float) (Some (CompositeAlphaModel.name self))])
            /\ ((2 <= len g)%Z -> (len up < len down)%Z ->
                for_symbol s out
                = [mkInsight s "Down" (Some (CompositeAlphaModel.avg_confidence down))
                     (Some 1%float) (Some (CompositeAlphaModel.name self))]
                /\ for_symbol s out'
                   = [mkInsight s "Down" (Some (CompositeAlphaModel.avg_confidence down'))
                        (Some 1%float) (Some (CompositeAlphaModel.name self))])
            /\ ((len up <= 2)%Z -> (len down <= 2)%Z ->
                for_symbol s out = for_symbol s out'))
  /\ (forall (self self' : CompositeAlphaModel.t) (symbols : list string),
         CompositeAlphaModel.name self = CompositeAlphaModel.name self' ->
         Forall2 (fun m m' => BasePythonAlphaModel.generate_insights m symbols
                              = BasePythonAlphaModel.generate_insights m' symbols)
                 (CompositeAlphaModel.models self) (CompositeAlphaModel.models self') ->
         CompositeAlphaModel.generate_insights self symbols
         = CompositeAlphaModel.generate_insights self' symbols).
Proof.
  split.
  - intros self self' symbols all_insights Hname Hperm Hc.
    destruct (CompositeFacts.collect_Permutation _ _ symbols all_insights Hperm Hc)
      as (all_insights' & Hc' & Hall).
    destruct (CompositeFacts.generate_per_symbol self symbols all_insights Hc)
      as (out & Hgen & _ & Hper).
    destruct (CompositeFacts.generate_per_symbol self' symbols all_insights' Hc')
      as (out' & Hgen' & _ & Hper').
    exists all_insights', out, out'.
    split; [exact Hc'|]. split; [exact Hall|]. split; [exact Hgen|]. split; [exact Hgen'|].
    intros s g g' up up' down down'.
    assert (Hg : Permutation g g')
      by (unfold g, g', for_symbol; now apply CompositeFacts.Permutation_filter).
    assert (Hup : Permutation up up') by now apply CompositeFacts.Permutation_filter.
    assert (Hdown : Permutation down down') by now apply CompositeFacts.Permutation_filter.
    pose proof (CompositeFacts.len_Permutation _ _ Hg) as Lg.
    pose proof (CompositeFacts.len_Permutation _ _ Hup) as Lup.
    pose proof (CompositeFacts.len_Permutation _ _ Hdown) as Ldown.
    rewrite Hper, Hper', <- Hname. fold g g'.
    destruct (CompositeFacts.emitted_cases (CompositeAlphaModel.name self) s g)
      as (Hnone & Hupc & Hdownc).
    destruct (CompositeFacts.emitted_cases (CompositeAlphaModel.name self) s g')
      as (Hnone' & Hupc' & Hdownc').
    fold up down in Hnone, Hupc, Hdownc. fold up' down' in Hnone', Hupc', Hdownc'.
    split; [exact Hg|]. split; [exact Hup|]. split; [exact Hdown|].
    split; [|split; [|split; [|]]].
    + intros Hcase. split; [now apply Hnone|].
      apply Hnone'. destruct Hcase as [H|H]; [left; lia|right; congruence].
    + intros Hq Hmaj. split; [now apply Hupc|]. apply Hupc'; lia.
    + intros Hq Hmaj. split; [now apply Hdownc|]. apply Hdownc'; lia.
    + intros H1 H2. now apply CompositeFacts.emitted_Permutation_small.
  - intros self self' symbols Hname HF.
    unfold CompositeAlphaModel.generate_insights. rewrite Hname.
    replace (CompositeAlphaModel.collect (CompositeAlphaModel.models self') symbols)
      with (CompositeAlphaModel.collect (CompositeAlphaModel.models self) symbols);
      [reflexivity|].
    unfold CompositeAlphaModel.collect. generalize (@nil PyInsight).
    induction HF as [|m m' ms ms' Hm _ IH]; intros acc; simpl; [reflexivity|].
    rewrite <- Hm.
    destruct (BasePythonAlphaModel.generate_insights m symbols); simpl; [apply IH|reflexivity].
Qed.

(* ===================================================================== *)
(** ** One insight per symbol                                              *)
(* ===================================================================== *)

Section OnePerSymbol.

Variable get_price_history : string -> Z -> result (list float).
Variable calculate_rsi : list float -> Z -> result (list float).
Variable calculate_sma : list float -> Z -> result (list float).

(** C8, amended.  On a symbol list without repetitions the RSI model and
    the cross model emit at most one insight per symbol; the composite
    model emits at most one insight per symbol on every list. *)
Theorem one_insight_per_symbol
  (rsi : RSIAlphaModel.t) (ma : MovingAverageCrossAlphaModel.t) (symbols : list string) :
  NoDup symbols ->
  (forall out,
      RSIAlphaModel.generate_insights get_price_history calculate_rsi rsi symbols = Ok out ->
      NoDup (map symbol out))
  /\ (forall out,
         MovingAverageCrossAlphaModel.generate_insights
           get_price_history calculate_sma ma symbols = Ok out ->
         NoDup (map symbol out))
  /\ (forall (composite : CompositeAlphaModel.t) (any_symbols : list string) out,
         CompositeAlphaModel.generate_insights composite any_symbols = Ok out ->
         NoDup (map symbol out)).
Proof.
  intros Hnd.
  destruct (signal_models_NoDup get_price_history calculate_rsi calculate_sma
              rsi ma symbols Hnd) as [Hrsi Hma].
  split; [exact Hrsi|split; [exact Hma|]].
  intros composite any_symbols out Hgen.
  unfold CompositeAlphaModel.generate_insights in Hgen.
  destruct (CompositeAlphaModel.collect _ any_symbols) as [all_insights|e]; simpl in Hgen;
    [|discriminate].
  injection Hgen as <-.
  apply CompositeFacts.consensus_NoDup, CompositeFacts.group_by_symbol_spec.
Qed.

End OnePerSymbol.

(* ===================================================================== *)
(** ** Construction                                                        *)
(* ===================================================================== *)

(** C7, amended.  The constructors check nothing: whatever the periods
    and thresholds, construction succeeds and the model holds them as
    given. *)
Theorem constructors_accept_any_configuration
  (rsi_period : Z) (overbought oversold : float) (fast_period slow_period : Z) :
  RSIAlphaModel.init rsi_period overbought oversold
  = Ok (RSIAlphaModel.mk "RSI_Alpha_Model" rsi_period overbought oversold)
  /\ MovingAverageCrossAlphaModel.init fast_period slow_period
     = Ok (MovingAverageCrossAlphaModel.mk "MA_Cross_Alpha_Model" fast_period slow_period).
Proof.
  unfold RSIAlphaModel.init, MovingAverageCrossAlphaModel.init.
  split; reflexivity.
Qed.

(** C7 as stated fails: an RSI model with [oversold = 70 >= overbought = 30],
    one with the period [-5], and a cross model with the periods [0] and
    [-3] are all constructed without an error. *)
Lemma invalid_configuration_is_accepted :
  (30 <=? 70)%float = true
  /\ (forall e, RSIAlphaModel.init 14 30 70 <> Raise e)
  /\ (forall e, RSIAlphaModel.init (-5) 70 30 <> Raise e)
  /\ (forall e, MovingAverageCrossAlphaModel.init 0 (-3) <> Raise e).
Proof.
  split; [reflexivity|]. repeat split; intros e H; discriminate H.
Qed.

(* ===================================================================== *)
(** ** Concrete runs                                                       *)
(* ===================================================================== *)

(** The crossing rule on a run: fast [10, 10, 12] against slow
    [11, 11, 11] is a golden cross. *)
Lemma ma_cross_rule_witness :
  MovingAverageCrossAlphaModel.generate_insights Sample.get_price_history
    (Sample.calculate_sma 10 [10; 10; 12]%float [11; 11; 11]%float)
    (MovingAverageCrossAlphaModel.mk "MA_Cross_Alpha_Model" 10 20)
    (["BAD"] ++ "BTCUSDT" :: ["NEW"])
  = Ok [mkInsight "BTCUSDT" "Up" (Some 0.7%float) (Some 1%float)
          (Some "MA_Cross_Alpha_Model")].
Proof.
  destruct (ma_cross_rule Sample.get_price_history
              (Sample.calculate_sma 10 [10; 10; 12]%float [11; 11; 11]%float)
              (MovingAverageCrossAlphaModel.mk "MA_Cross_Alpha_Model" 10 20) "BTCUSDT"
              (repeat 100%float 30) [10%float] [11%float]
              10%float 12%float 11%float 11%float ["BAD"] ["NEW"]
              eq_refl ltac:(vm_compute; discriminate) eq_refl eq_refl)
    as (out_pre & out_post & Hpre & Hpost & Hup & _).
  vm_compute in Hpre. injection Hpre as <-.
  vm_compute in Hpost. injection Hpost as <-.
  rewrite (Hup eq_refl eq_refl). reflexivity.
Defined.

(** The provider raises on ["BAD"]: the result is the one of the list
    without it. *)
Lemma collaborator_failure_isolated_witness :
  exists out,
    RSIAlphaModel.generate_insights Sample.get_price_history (Sample.calculate_rsi 85)
      (RSIAlphaModel.mk "RSI_Alpha_Model" 14 70 30) (["BTCUSDT"] ++ "BAD" :: ["ETHUSDT"])
    = Ok out
    /\ RSIAlphaModel.generate_insights Sample.get_price_history (Sample.calculate_rsi 85)
         (RSIAlphaModel.mk "RSI_Alpha_Model" 14 70 30) (["BTCUSDT"] ++ ["ETHUSDT"])
       = Ok out.
Proof.
  apply (proj1 (collaborator_failure_isolated Sample.get_price_history
                  (Sample.calculate_rsi 85)
                  (Sample.calculate_sma 10 [10; 10; 12]%float [11; 11; 11]%float))).
  left. exists (Exception "no such symbol"). reflexivity.
Defined.

(** C8 as stated fails on a list that repeats a symbol: the RSI model
    emits one insight for each occurrence. *)
Lemma repeated_symbol_repeated_insight :
  exists out,
    RSIAlphaModel.generate_insights Sample.get_price_history (Sample.calculate_rsi 85)
      (RSIAlphaModel.mk "RSI_Alpha_Model" 14 70 30) ["BTCUSDT"; "BTCUSDT"]
    = Ok out
    /\ ~ NoDup (map symbol out).
Proof.
  eexists. split; [vm_compute; reflexivity|].
  simpl. intros Hnd. inversion Hnd as [|? ? Hnotin _]; subst.
  apply Hnotin. now left.
Qed.

(** On three distinct symbols the RSI model emits for two, once each. *)
Lemma one_insight_per_symbol_witness :
  NoDup (map symbol
           [make_insight "RSI_Alpha_Model" "BTCUSDT" "Down" 0.9%float;
            make_insight "RSI_Alpha_Model" "ETHUSDT" "Down" 0.9%float]).
Proof.
  apply (proj1 (one_insight_per_symbol Sample.get_price_history (Sample.calculate_rsi 85)
                  (Sample.calculate_sma 10 [10; 10; 12]%float [11; 11; 11]%float)
                  (RSIAlphaModel.mk "RSI_Alpha_Model" 14 70 30)
                  (MovingAverageCrossAlphaModel.mk "MA_Cross_Alpha_Model" 10 20)
                  ["BTCUSDT"; "BAD"; "ETHUSDT"]
                  ltac:(repeat constructor; simpl; intuition discriminate))).
  now vm_compute.
Defined.

(** One insight for ["BTCUSDT"], one for ["ETHUSDT"]: no quorum. *)
Lemma quorum_not_met_witness :
  exists out,
    CompositeAlphaModel.generate_insights
      (Sample.composite
         [Sample.constant_model "a" "BTCUSDT" "Up" (Some 0.9%float);
          Sample.constant_model "b" "ETHUSDT" "Up" (Some 0.9%float)])
      ["BTCUSDT"; "ETHUSDT"] = Ok out
    /\ for_symbol "BTCUSDT" out = []
    /\ forall i, In i out -> symbol i <> "BTCUSDT".
Proof.
  apply (quorum_not_met _ _
           [mkInsight "BTCUSDT" "Up" (Some 0.9%float) (Some 1%float) (Some "a");
            mkInsight "ETHUSDT" "Up" (Some 0.9%float) (Some 1%float) (Some "b")]).
  - reflexivity.
  - vm_compute. reflexivity.
Defined.

(** One Up against one Down: a tie. *)
Lemma tie_is_dropped_witness :
  exists out,
    CompositeAlphaModel.generate_insights
      (Sample.composite
         [Sample.constant_model "a" "BTCUSDT" "Up" (Some 0.9%float);
          Sample.constant_model "b" "BTCUSDT" "Down" (Some 0.2%float)])
      ["BTCUSDT"] = Ok out
    /\ for_symbol "BTCUSDT" out = []
    /\ forall i, In i out -> symbol i <> "BTCUSDT".
Proof.
  apply (tie_is_dropped _ _
           [mkInsight "BTCUSDT" "Up" (Some 0.9%float) (Some 1%float) (Some "a");
            mkInsight "BTCUSDT" "Down" (Some 0.2%float) (Some 1%float) (Some "b")]).
  - reflexivity.
  - vm_compute. discriminate.
  - reflexivity.
Defined.

(** Up(0.8), Up(0.6), Down(0.9): a composite Up of confidence 0.7. *)
Lemma majority_consensus_witness :
  exists out,
    CompositeAlphaModel.generate_insights
      (Sample.composite
         [Sample.constant_model "a" "BTCUSDT" "Up" (Some 0.8%float);
          Sample.constant_model "b" "BTCUSDT" "Up" (Some 0.6%float);
          Sample.constant_model "c" "BTCUSDT" "Down" (Some 0.9%float)])
      ["BTCUSDT"] = Ok out
    /\ for_symbol "BTCUSDT" out
       = [mkInsight "BTCUSDT" "Up" (Some 0.7%float) (Some 1%float)
            (Some "Composite_Alpha_Model")].
Proof.
  destruct (majority_consensus
              [Sample.constant_model "a" "BTCUSDT" "Up" (Some 0.8%float);
               Sample.constant_model "b" "BTCUSDT" "Up" (Some 0.6%float);
               Sample.constant_model "c" "BTCUSDT" "Down" (Some 0.9%float)]
              _ ["BTCUSDT"] _ "BTCUSDT" eq_refl eq_refl
              ltac:(vm_compute; discriminate))
    as (out & Hgen & Hup & _).
  exists out. split; [exact Hgen|].
  destruct (Hup eq_refl) as [-> _]. now vm_compute.
Defined.

(** C1 as stated fails on a confidence of 0.0: two Up insights of
    confidence 0.0 have the arithmetic mean 0.0, and the composite insight
    has the confidence 0.5, each zero having been replaced by 0.5. *)
Theorem zero_confidence_counts_as_half :
  CompositeAlphaModel.generate_insights
    (Sample.composite
       [Sample.constant_model "a" "BTCUSDT" "Up" (Some 0%float);
        Sample.constant_model "b" "BTCUSDT" "Up" (Some 0%float)])
    ["BTCUSDT"]
  = Ok [mkInsight "BTCUSDT" "Up" (Some 0.5%float) (Some 1%float)
          (Some "Composite_Alpha_Model")]
  /\ mean_confidence
       [mkInsight "BTCUSDT" "Up" (Some 0%float) (Some 1%float) (Some "a");
        mkInsight "BTCUSDT" "Up" (Some 0%float) (Some 1%float) (Some "b")]
     = 0%float
  /\ (0.5 =? 0)%float = false.
Proof.
  split; [now vm_compute|]. split; [now vm_compute|reflexivity].
Qed.

(** C9 as stated fails on three sub-models that agree on Up with the
    confidences 0.1, 0.2 and 0.3: asked in this order they give the
    confidence 0.20000000000000004, in the reverse order
    0.19999999999999998. *)
Lemma summation_order_changes_confidence :
  exists out out',
    Permutation
      [Sample.constant_model "a" "BTCUSDT" "Up" (Some 0.1%float);
       Sample.constant_model "b" "BTCUSDT" "Up" (Some 0.2%float);
       Sample.constant_model "c" "BTCUSDT" "Up" (Some 0.3%float)]
      [Sample.constant_model "c" "BTCUSDT" "Up" (Some 0.3%float);
       Sample.constant_model "b" "BTCUSDT" "Up" (Some 0.2%float);
       Sample.constant_model "a" "BTCUSDT" "Up" (Some 0.1%float)]
    /\ CompositeAlphaModel.generate_insights
         (Sample.composite
            [Sample.constant_model "a" "BTCUSDT" "Up" (Some 0.1%float);
             Sample.constant_model "b" "BTCUSDT" "Up" (Some 0.2%float);
             Sample.constant_model "c" "BTCUSDT" "Up" (Some 0.3%float)])
         ["BTCUSDT"] = Ok out
    /\ CompositeAlphaModel.generate_insights
         (Sample.composite
            [Sample.constant_model "c" "BTCUSDT" "Up" (Some 0.3%float);
             Sample.constant_model "b" "BTCUSDT" "Up" (Some 0.2%float);
             Sample.constant_model "a" "BTCUSDT" "Up" (Some 0.1%float)])
         ["BTCUSDT"] = Ok out'
    /\ for_symbol "BTCUSDT" out <> for_symbol "BTCUSDT" out'
    /\ map confidence out = [Some 0.20000000000000004%float]
    /\ map confidence out' = [Some 0.19999999999999998%float].
Proof.
  eexists. eexists. split; [|split; [|split; [|split]]].
  - apply (Permutation_rev
             [Sample.constant_model "a" "BTCUSDT" "Up" (Some 0.1%float);
              Sample.constant_model "b" "BTCUSDT" "Up" (Some 0.2%float);
              Sample.constant_model "c" "BTCUSDT" "Up" (Some 0.3%float)]).
  - vm_compute. reflexivity.
  - vm_compute. reflexivity.
  - intros H.
    apply (f_equal (fun l => map (fun i => option_map Prim2SF (confidence i)) l)) in H.
    vm_compute in H. discriminate H.
  - split; reflexivity.
Qed.

(** Up(0.8), Up(0.6), Down(0.9) asked in the reverse order: the same
    composite insight, Up with the confidence (0.8 + 0.6) / 2. *)
Lemma consensus_up_to_summation_order_witness :
  exists out out',
    CompositeAlphaModel.generate_insights
      (Sample.composite
         [Sample.constant_model "a" "BTCUSDT" "Up" (Some 0.8%float);
          Sample.constant_model "b" "BTCUSDT" "Up" (Some 0.6%float);
          Sample.constant_model "c" "BTCUSDT" "Down" (Some 0.9%float)])
      ["BTCUSDT"] = Ok out
    /\ CompositeAlphaModel.generate_insights
         (Sample.composite
            [Sample.constant_model "c" "BTCUSDT" "Down" (Some 0.9%float);
             Sample.constant_model "b" "BTCUSDT" "Up" (Some 0.6%float);
             Sample.constant_model "a" "BTCUSDT" "Up" (Some 0.8%float)])
         ["BTCUSDT"] = Ok out'
    /\ for_symbol "BTCUSDT" out = for_symbol "BTCUSDT" out'
    /\ for_symbol "BTCUSDT" out
       = [mkInsight "BTCUSDT" "Up" (Some 0.7%float) (Some 1%float)
            (Some "Composite_Alpha_Model")].
Proof.
  destruct (proj1 consensus_up_to_summation_order
              (Sample.composite
                 [Sample.constant_model "a" "BTCUSDT" "Up" (Some 0.8%float);
                  Sample.constant_model "b" "BTCUSDT" "Up" (Some 0.6%float);
                  Sample.constant_model "c" "BTCUSDT" "Down" (Some 0.9%float)])
              (Sample.composite
                 [Sample.constant_model "c" "BTCUSDT" "Down" (Some 0.9%float);
                  Sample.constant_model "b" "BTCUSDT" "Up" (Some 0.6%float);
                  Sample.constant_model "a" "BTCUSDT" "Up" (Some 0.8%float)])
              ["BTCUSDT"] _ eq_refl
              (Permutation_rev
                 [Sample.constant_model "a" "BTCUSDT" "Up" (Some 0.8%float);
                  Sample.constant_model "b" "BTCUSDT" "Up" (Some 0.6%float);
                  Sample.constant_model "c" "BTCUSDT" "Down" (Some 0.9%float)])
              eq_refl)
    as (all_insights' & out & out' & _ & _ & Hgen & Hgen' & Hsame).
  destruct (Hsame "BTCUSDT") as (_ & _ & _ & _ & Hup & _ & Hsmall).
  exists out, out'. split; [exact Hgen|]. split; [exact Hgen'|]. split.
  - apply Hsmall; vm_compute; discriminate.
  - destruct Hup as [-> _]; [vm_compute; discriminate|vm_compute; reflexivity|].
    now vm_compute.
Defined.

(** The composite of the two signal models, as the demonstration builds
    it: an RSI of 25 gives Up with confidence 0.5, the golden cross Up
    with confidence 0.7, and the composite Up with confidence 0.6; the
    symbols that are skipped by both models get nothing. *)
Example composite_of_the_two_models :
  CompositeAlphaModel.generate_insights
    (Sample.composite
       [RSIAlphaModel.as_model Sample.get_price_history (Sample.calculate_rsi 25)
          (RSIAlphaModel.mk "RSI_Alpha_Model" 14 70 30);
        MovingAverageCrossAlphaModel.as_model Sample.get_price_history
          (Sample.calculate_sma 10 [10; 10; 12]%float [11; 11; 11]%float)
          (MovingAverageCrossAlphaModel.mk "MA_Cross_Alpha_Model" 10 20)])
    ["BAD"; "BTCUSDT"; "NEW"]
  = Ok [mkInsight "BTCUSDT" "Up" (Some 0.6%float) (Some 1%float)
          (Some "Composite_Alpha_Model")].
Proof. now vm_compute. Qed.

(* ===================================================================== *)
(** ** The order of the binary64 comparisons                               *)
(* ===================================================================== *)

Module FloatOrder.

Lemma SFltb_key (x y : spec_float) :
  SFltb x y = true <->
  exists a b, order_key x = Some a /\ order_key y = Some b /\ key_lt a b.
Proof.
  unfold SFltb.
  destruct x as [sx|sx| |sx mx ex], y as [sy|sy| |sy my ey];
    try destruct sx; try destruct sy; simpl;
    try (split; [discriminate|intros (a & b & Ha & Hb & Hlt); try discriminate;
                 injection Ha as <-; injection Hb as <-; simpl in Hlt; lia]);
    try (split; [intros _; eexists; eexists; repeat split; simpl; lia|reflexivity]).
  - (* two negative numbers *)
    change (Pos.compare_cont Eq mx my) with (mx ?= my)%positive.
    destruct (Z.compare_spec ex ey) as [He|He|He];
      [destruct (Pos.compare_spec mx my) as [Hm|Hm|Hm]| |]; simpl;
      (split; [try discriminate; intros _; eexists; eexists; repeat split; simpl; lia
              |intros (a & b & Ha & Hb & Hlt); injection Ha as <-; injection Hb as <-;
               simpl in Hlt; try reflexivity; lia]).
  - (* two positive numbers *)
    change (Pos.compare_cont Eq mx my) with (mx ?= my)%positive.
    destruct (Z.compare_spec ex ey) as [He|He|He];
      [destruct (Pos.compare_spec mx my) as [Hm|Hm|Hm]| |]; simpl;
      (split; [try discriminate; intros _; eexists; eexists; repeat split; simpl; lia
              |intros (a & b & Ha & Hb & Hlt); injection Ha as <-; injection Hb as <-;
               simpl in Hlt; try reflexivity; lia]).
Qed.

Lemma SFleb_key (x y : spec_float) :
  SFleb x y = true <->
  exists a b, order_key x = Some a /\ order_key y = Some b /\ (key_lt a b \/ a = b).
Proof.
  unfold SFleb.
  destruct x as [sx|sx| |sx mx ex], y as [sy|sy| |sy my ey];
    try destruct sx; try destruct sy; simpl;
    try (split; [discriminate
                |intros (a & b & Ha & Hb & Hle);
                 first [discriminate
                       |injection Ha as <-; injection Hb as <-;
                        destruct Hle as [Hlt|Heq]; [simpl in Hlt; lia|discriminate Heq]]]);
    try (split; [intros _; eexists; eexists; repeat split;
                 first [right; reflexivity|left; simpl; lia]|reflexivity]).
  - change (Pos.compare_cont Eq mx my) with (mx ?= my)%positive.
    destruct (Z.compare_spec ex ey) as [He|He|He];
      [destruct (Pos.compare_spec mx my) as [Hm|Hm|Hm]| |]; simpl;
      (split; [try discriminate; intros _; eexists; eexists; repeat split;
               first [right; subst; reflexivity|left; simpl; lia]
              |intros (a & b & Ha & Hb & Hle); injection Ha as <-; injection Hb as <-;
               destruct Hle as [Hlt|Heq];
               [simpl in Hlt; try reflexivity; lia
               |injection Heq as H1 H2; try reflexivity; lia]]).
  - change (Pos.compare_cont Eq mx my) with (mx ?= my)%positive.
    destruct (Z.compare_spec ex ey) as [He|He|He];
      [destruct (Pos.compare_spec mx my) as [Hm|Hm|Hm]| |]; simpl;
      (split; [try discriminate; intros _; eexists; eexists; repeat split;
               first [right; subst; reflexivity|left; simpl; lia]
              |intros (a & b & Ha & Hb & Hle); injection Ha as <-; injection Hb as <-;
               destruct Hle as [Hlt|Heq];
               [simpl in Hlt; try reflexivity; lia
               |injection Heq as H1 H2; try reflexivity; lia]]).
Qed.

(** Below the lower of two ordered thresholds is not above the upper. *)
Lemma below_lower_not_above_upper (v lower upper : float) :
  (v <? lower)%float = true -> (lower <=? upper)%float = true ->
  (upper <? v)%float = false.
Proof.
  rewrite !ltb_spec, leb_spec. intros H1 H2.
  destruct (SFltb (Prim2SF upper) (Prim2SF v)) eqn:H3; [exfalso|reflexivity].
  apply SFltb_key in H1, H3. apply SFleb_key in H2.
  destruct H1 as (kv & kl & Hv & Hl & H1).
  destruct H2 as (kl' & ku & Hl' & Hu & H2).
  destruct H3 as (ku' & kv' & Hu' & Hv' & H3).
  rewrite Hl in Hl'. injection Hl' as <-.
  rewrite Hu in Hu'. injection Hu' as <-.
  rewrite Hv in Hv'. injection Hv' as <-.
  destruct kv as [[v1 v2] v3], kl as [[l1 l2] l3], ku as [[u1 u2] u3].
  simpl in H1, H3.
  destruct H2 as [H2|H2]; [simpl in H2; lia|].
  injection H2 as -> -> ->. lia.
Qed.

(** A comparison with NaN is false. *)
Lemma nan_comparisons (x : float) :
  (x <? nan)%float = false /\ (nan <? x)%float = false
  /\ (x <=? nan)%float = false /\ (nan <=? x)%float = false.
Proof.
  rewrite !ltb_spec, !leb_spec.
  change (Prim2SF nan) with S754_nan.
  unfold SFltb, SFleb. simpl.
  destruct (Prim2SF x); repeat split; reflexivity.
Qed.

End FloatOrder.

(* ===================================================================== *)
(** ** More on the two signal models                                       *)
(* ===================================================================== *)

(** [Ok] is injective; stated apart because results may hold floats. *)
Lemma Ok_inj {A : Type} (a b : A) : Ok a = Ok b -> a = b.
Proof.
  intros H.
  exact (f_equal (fun r => match r with Ok x => x | Raise _ => a end) H).
Qed.

Section MoreOnSignalModels.

Variable get_price_history : string -> Z -> result (list float).
Variable calculate_rsi : list float -> Z -> result (list float).
Variable calculate_sma : list float -> Z -> result (list float).

Lemma rsi_emitted_shape (self : RSIAlphaModel.t) (sym : string) (i : PyInsight) :
  In i (RSIAlphaModel.emitted get_price_history calculate_rsi self sym) ->
  symbol i = sym /\ well_formed (RSIAlphaModel.name self) i.
Proof.
  unfold RSIAlphaModel.emitted, RSIAlphaModel.try_block, well_formed.
  destruct (get_price_history sym 50) as [prices|e]; simpl; [|contradiction].
  destruct (len prices <? _)%Z; [contradiction|].
  destruct (calculate_rsi prices _) as [[|r rs]|e]; simpl; try contradiction.
  destruct (getitem_neg (r :: rs) 1) as [latest|e]; simpl; [|contradiction].
  destruct (_ <? latest)%float.
  - intros [<-|[]]. simpl. repeat split; auto. eexists; reflexivity.
  - destruct (latest <? _)%float; [|contradiction].
    intros [<-|[]]. simpl. repeat split; auto. eexists; reflexivity.
Qed.

Lemma ma_emitted_shape (self : MovingAverageCrossAlphaModel.t) (sym : string) (i : PyInsight) :
  In i (MovingAverageCrossAlphaModel.emitted get_price_history calculate_sma self sym) ->
  symbol i = sym
  /\ well_formed (MovingAverageCrossAlphaModel.name self) i
  /\ confidence i = Some 0.7%float.
Proof.
  unfold MovingAverageCrossAlphaModel.emitted, MovingAverageCrossAlphaModel.try_block,
    well_formed.
  destruct (get_price_history sym _) as [prices|e]; simpl; [|contradiction].
  destruct (len prices <? _)%Z; [contradiction|].
  destruct (calculate_sma prices (MovingAverageCrossAlphaModel.fast_period self))
    as [fast_ma|e]; simpl; [|contradiction].
  destruct (calculate_sma prices (MovingAverageCrossAlphaModel.slow_period self))
    as [slow_ma|e]; simpl; [|contradiction].
  destruct (_ || _)%bool; [contradiction|].
  destruct (getitem_neg fast_ma 1) as [fc|e]; simpl; [|contradiction].
  destruct (getitem_neg fast_ma 2) as [fp|e]; simpl; [|contradiction].
  destruct (getitem_neg slow_ma 1) as [sc|e]; simpl; [|contradiction].
  destruct (getitem_neg slow_ma 2) as [sp|e]; simpl; [|contradiction].
  destruct (_ && _)%bool.
  - intros [<-|[]]. simpl. repeat split; auto. eexists; reflexivity.
  - destruct (_ && _)%bool; [|contradiction].
    intros [<-|[]]. simpl. repeat split; auto. eexists; reflexivity.
Qed.

Lemma flat_map_length_le {A B : Type} (f : A -> list B) (xs : list A) :
  (forall x, List.length (f x) <= 1)%nat ->
  (List.length (flat_map f xs) <= List.length xs)%nat.
Proof.
  intros Hf. induction xs as [|x xs IH]; simpl; [lia|].
  rewrite length_app. specialize (Hf x). lia.
Qed.

Lemma at_most_one_length (s : string) (l : list PyInsight) :
  at_most_one_for s l -> (List.length l <= 1)%nat.
Proof. intros [->|(i & -> & _)]; simpl; lia. Qed.

Lemma signal_confidences (rsi : RSIAlphaModel.t) (ma : MovingAverageCrossAlphaModel.t)
  (symbols : list string) :
  (exists out,
      RSIAlphaModel.generate_insights get_price_history calculate_rsi rsi symbols = Ok out
      /\ Forall (fun i => exists c, confidence i = Some c) out)
  /\ (exists out,
         MovingAverageCrossAlphaModel.generate_insights
           get_price_history calculate_sma ma symbols = Ok out
         /\ Forall (fun i => exists c, confidence i = Some c) out).
Proof.
  split.
  - eexists. split; [apply rsi_generate_flat_map|].
    apply Forall_forall. intros i Hin.
    apply in_flat_map in Hin. destruct Hin as (s & _ & Hin).
    now destruct (rsi_emitted_shape _ _ _ Hin) as (_ & _ & Hc & _).
  - eexists. split; [apply ma_generate_flat_map|].
    apply Forall_forall. intros i Hin.
    apply in_flat_map in Hin. destruct Hin as (s & _ & Hin).
    now destruct (ma_emitted_shape _ _ _ Hin) as (_ & (_ & Hc & _) & _).
Qed.

(** X2.  Every insight of the RSI model and of the cross model is for a
    symbol of the input list, Up or Down, of magnitude 1.0, with a
    confidence and the name of its model as source; the cross model's
    confidence is always 0.7; and neither result is longer than the
    symbol list. *)
Theorem signal_insights_are_well_formed
  (rsi : RSIAlphaModel.t) (ma : MovingAverageCrossAlphaModel.t) (symbols : list string) :
  (exists out,
      RSIAlphaModel.generate_insights get_price_history calculate_rsi rsi symbols = Ok out
      /\ (List.length out <= List.length symbols)%nat
      /\ Forall (fun i => In (symbol i) symbols
                          /\ well_formed (RSIAlphaModel.name rsi) i) out)
  /\ (exists out,
         MovingAverageCrossAlphaModel.generate_insights
           get_price_history calculate_sma ma symbols = Ok out
         /\ (List.length out <= List.length symbols)%nat
         /\ Forall (fun i => In (symbol i) symbols
                             /\ well_formed (MovingAverageCrossAlphaModel.name ma) i
                             /\ confidence i = Some 0.7%float) out).
Proof.
  split.
  - eexists. split; [apply rsi_generate_flat_map|]. split.
    + apply flat_map_length_le. intros s.
      apply (at_most_one_length s), rsi_emitted_at_most_one.
    + apply Forall_forall. intros i Hin.
      apply in_flat_map in Hin. destruct Hin as (s & Hs & Hin).
      destruct (rsi_emitted_shape _ _ _ Hin) as [-> Hwf]. now split.
  - eexists. split; [apply ma_generate_flat_map|]. split.
    + apply flat_map_length_le. intros s.
      apply (at_most_one_length s), ma_emitted_at_most_one.
    + apply Forall_forall. intros i Hin.
      apply in_flat_map in Hin. destruct Hin as (s & Hs & Hin).
      destruct (ma_emitted_shape _ _ _ Hin) as (-> & Hwf & Hc).
      split; [exact Hs|split; [exact Hwf|exact Hc]].
Qed.

Lemma rsi_skips_with (engine : list float -> Z -> result (list float))
  (self : RSIAlphaModel.t) (pre : list string) (sym : string) (post : list string) :
  RSIAlphaModel.emitted get_price_history engine self sym = [] ->
  RSIAlphaModel.generate_insights get_price_history engine self (pre ++ sym :: post)
  = RSIAlphaModel.generate_insights get_price_history engine self (pre ++ post).
Proof.
  intros He. rewrite !rsi_generate_flat_map, !flat_map_app. simpl. now rewrite He.
Qed.

Lemma ma_skips_with (engine : list float -> Z -> result (list float))
  (self : MovingAverageCrossAlphaModel.t)
  (pre : list string) (sym : string) (post : list string) :
  MovingAverageCrossAlphaModel.emitted get_price_history engine self sym = [] ->
  MovingAverageCrossAlphaModel.generate_insights
    get_price_history engine self (pre ++ sym :: post)
  = MovingAverageCrossAlphaModel.generate_insights
      get_price_history engine self (pre ++ post).
Proof.
  intros He. rewrite !ma_generate_flat_map, !flat_map_app. simpl. now rewrite He.
Qed.

(** X3.  A symbol whose history is too short ([rsi_period + 1] prices for
    the RSI model, [slow_period + 2] for the cross model) is skipped
    whatever the calculation engine would answer, and so is a symbol whose
    RSI series is empty or one of whose averages has fewer than two
    points: the result is the one of the list without that symbol. *)
Theorem insufficient_data_is_skipped
  (pre : list string) (sym : string) (post : list string) :
  (forall (rsi : RSIAlphaModel.t) (prices : list float),
      get_price_history sym 50 = Ok prices ->
      ((len prices < RSIAlphaModel.rsi_period rsi + 1)%Z ->
       forall any_engine,
         RSIAlphaModel.generate_insights get_price_history any_engine rsi
           (pre ++ sym :: post)
         = RSIAlphaModel.generate_insights get_price_history any_engine rsi (pre ++ post))
      /\ (forall engine,
             engine prices (RSIAlphaModel.rsi_period rsi) = Ok [] ->
             RSIAlphaModel.generate_insights get_price_history engine rsi
               (pre ++ sym :: post)
             = RSIAlphaModel.generate_insights get_price_history engine rsi
                 (pre ++ post)))
  /\ (forall (ma : MovingAverageCrossAlphaModel.t) (prices : list float),
         get_price_history sym
           (Z.max (MovingAverageCrossAlphaModel.fast_period ma)
                  (MovingAverageCrossAlphaModel.slow_period ma) + 10) = Ok prices ->
         ((len prices < MovingAverageCrossAlphaModel.slow_period ma + 2)%Z ->
          forall any_engine,
            MovingAverageCrossAlphaModel.generate_insights get_price_history any_engine ma
              (pre ++ sym :: post)
            = MovingAverageCrossAlphaModel.generate_insights get_price_history any_engine ma
                (pre ++ post))
         /\ (forall engine fast_ma slow_ma,
                engine prices (MovingAverageCrossAlphaModel.fast_period ma)
                = Ok fast_ma ->
                engine prices (MovingAverageCrossAlphaModel.slow_period ma)
                = Ok slow_ma ->
                (len fast_ma < 2 \/ len slow_ma < 2)%Z ->
                MovingAverageCrossAlphaModel.generate_insights
                  get_price_history engine ma (pre ++ sym :: post)
                = MovingAverageCrossAlphaModel.generate_insights
                    get_price_history engine ma (pre ++ post))).
Proof.
  split.
  - intros rsi prices Hp. split.
    + intros Hlen any_engine. apply rsi_skips_with.
      unfold RSIAlphaModel.emitted, RSIAlphaModel.try_block. rewrite Hp; simpl.
      now replace (len prices <? _)%Z with true by (symmetry; apply Z.ltb_lt; lia).
    + intros engine Hr. apply rsi_skips_with.
      unfold RSIAlphaModel.emitted, RSIAlphaModel.try_block. rewrite Hp; simpl.
      destruct (len prices <? _)%Z; [reflexivity|]. now rewrite Hr.
  - intros ma prices Hp. split.
    + intros Hlen any_engine. apply ma_skips_with.
      unfold MovingAverageCrossAlphaModel.emitted, MovingAverageCrossAlphaModel.try_block.
      rewrite Hp; simpl.
      now replace (len prices <? _)%Z with true by (symmetry; apply Z.ltb_lt; lia).
    + intros engine fast_ma slow_ma Hf Hs Hshort. apply ma_skips_with.
      unfold MovingAverageCrossAlphaModel.emitted, MovingAverageCrossAlphaModel.try_block.
      rewrite Hp; simpl.
      destruct (len prices <? _)%Z; [reflexivity|].
      rewrite Hf; simpl. rewrite Hs; simpl.
      replace ((len fast_ma <? 2)%Z || (len slow_ma <? 2)%Z)%bool with true; [reflexivity|].
      symmetry. apply orb_true_iff.
      destruct Hshort as [H|H]; [left|right]; now apply Z.ltb_lt.
Qed.

(** C4.  For a symbol with at least [rsi_period + 1] prices and an RSI
    series ending in [v], under thresholds configured as the model expects
    them ([oversold <= overbought]): when [v > overbought] the model emits
    exactly one Down insight of confidence [min(0.9, (v - overbought) / 10.0)];
    when [v < oversold], exactly one Up insight of confidence
    [min(0.9, (oversold - v) / 10.0)]; and when [oversold <= v <= overbought],
    nothing.  Every confidence the model emits, under any configuration, is
    at least 0 and at most 0.9. *)
Theorem rsi_threshold_rule (self : RSIAlphaModel.t) (sym : string)
  (prices earlier : list float) (v : float) (pre post : list string) :
  get_price_history sym 50 = Ok prices ->
  (RSIAlphaModel.rsi_period self + 1 <= len prices)%Z ->
  calculate_rsi prices (RSIAlphaModel.rsi_period self) = Ok (earlier ++ [v]) ->
  (RSIAlphaModel.oversold self <=? RSIAlphaModel.overbought self)%float = true ->
  (exists out_pre out_post,
     RSIAlphaModel.generate_insights get_price_history calculate_rsi self pre = Ok out_pre
     /\ RSIAlphaModel.generate_insights get_price_history calculate_rsi self post
        = Ok out_post
     /\ ((RSIAlphaModel.overbought self <? v)%float = true ->
         RSIAlphaModel.generate_insights get_price_history calculate_rsi self
           (pre ++ sym :: post)
         = Ok (out_pre
               ++ [mkInsight sym "Down"
                     (Some (Py.min 0.9 ((v - RSIAlphaModel.overbought self) / 10.0))%float)
                     (Some 1%float) (Some (RSIAlphaModel.name self))]
               ++ out_post))
     /\ ((v <? RSIAlphaModel.oversold self)%float = true ->
         RSIAlphaModel.generate_insights get_price_history calculate_rsi self
           (pre ++ sym :: post)
         = Ok (out_pre
               ++ [mkInsight sym "Up"
                     (Some (Py.min 0.9 ((RSIAlphaModel.oversold self - v) / 10.0))%float)
                     (Some 1%float) (Some (RSIAlphaModel.name self))]
               ++ out_post))
     /\ ((RSIAlphaModel.oversold self <=? v)%float = true ->
         (v <=? RSIAlphaModel.overbought self)%float = true ->
         RSIAlphaModel.generate_insights get_price_history calculate_rsi self
           (pre ++ sym :: post)
         = Ok (out_pre ++ out_post)))
  /\ (forall symbols out i,
        RSIAlphaModel.generate_insights get_price_history calculate_rsi self symbols
        = Ok out ->
        In i out ->
        exists c, confidence i = Some c
                  /\ (0 <=? c)%float = true /\ (c <=? 0.9)%float = true).
Proof.
  intros Hp Hlen Hr Hord. split.
  - exists (flat_map (RSIAlphaModel.emitted get_price_history calculate_rsi self) pre),
           (flat_map (RSIAlphaModel.emitted get_price_history calculate_rsi self) post).
    pose proof (rsi_emitted_signal get_price_history calculate_rsi
                  self sym prices earlier v Hp Hlen Hr) as Hsig.
    split; [apply rsi_generate_flat_map|]. split; [apply rsi_generate_flat_map|].
    split; [|split].
    + intros Hob. rewrite Hob in Hsig.
      rewrite rsi_generate_flat_map, flat_map_app. simpl. now rewrite Hsig.
    + intros Hos.
      rewrite (FloatOrder.below_lower_not_above_upper _ _ _ Hos Hord), Hos in Hsig.
      rewrite rsi_generate_flat_map, flat_map_app. simpl. now rewrite Hsig.
    + intros Hos Hob.
      apply FloatFacts.leb_not_ltb in Hos, Hob. rewrite Hob, Hos in Hsig.
      rewrite rsi_generate_flat_map, flat_map_app. simpl. now rewrite Hsig.
  - intros symbols out i Hgen Hin.
    rewrite rsi_generate_flat_map in Hgen. apply Ok_inj in Hgen. subst out.
    apply in_flat_map in Hin. destruct Hin as (s & _ & Hin).
    now apply (rsi_emitted_confidence get_price_history calculate_rsi self s).
Qed.

(** X4.  Whatever the thresholds, also when they overlap
    ([oversold > overbought], which the constructor accepts), the
    overbought test is made first: a latest value above [overbought] gives
    exactly one Down insight of confidence [min(0.9, (v - overbought) / 10.0)]
    even if it is below [oversold] too; a value not above [overbought] and
    below [oversold] gives exactly one Up insight of confidence
    [min(0.9, (oversold - v) / 10.0)]; any other value gives nothing.  With
    ordered thresholds no value passes both tests. *)
Theorem rsi_rule_for_any_thresholds (self : RSIAlphaModel.t) (sym : string)
  (prices earlier : list float) (v : float) (pre post : list string) :
  get_price_history sym 50 = Ok prices ->
  (RSIAlphaModel.rsi_period self + 1 <= len prices)%Z ->
  calculate_rsi prices (RSIAlphaModel.rsi_period self) = Ok (earlier ++ [v]) ->
  exists out_pre out_post,
    RSIAlphaModel.generate_insights get_price_history calculate_rsi self pre = Ok out_pre
    /\ RSIAlphaModel.generate_insights get_price_history calculate_rsi self post
       = Ok out_post
    /\ ((RSIAlphaModel.overbought self <? v)%float = true ->
        RSIAlphaModel.generate_insights get_price_history calculate_rsi self
          (pre ++ sym :: post)
        = Ok (out_pre
              ++ [mkInsight sym "Down"
                    (Some (Py.min 0.9 ((v - RSIAlphaModel.overbought self) / 10.0))%float)
                    (Some 1%float) (Some (RSIAlphaModel.name self))]
              ++ out_post))
    /\ ((RSIAlphaModel.overbought self <? v)%float = false ->
        (v <? RSIAlphaModel.oversold self)%float = true ->
        RSIAlphaModel.generate_insights get_price_history calculate_rsi self
          (pre ++ sym :: post)
        = Ok (out_pre
              ++ [mkInsight sym "Up"
                    (Some (Py.min 0.9 ((RSIAlphaModel.oversold self - v) / 10.0))%float)
                    (Some 1%float) (Some (RSIAlphaModel.name self))]
              ++ out_post))
    /\ ((RSIAlphaModel.overbought self <? v)%float = false ->
        (v <? RSIAlphaModel.oversold self)%float = false ->
        RSIAlphaModel.generate_insights get_price_history calculate_rsi self
          (pre ++ sym :: post)
        = Ok (out_pre ++ out_post))
    /\ ((RSIAlphaModel.oversold self <=? RSIAlphaModel.overbought self)%float = true ->
        ~ ((RSIAlphaModel.overbought self <? v)%float = true
           /\ (v <? RSIAlphaModel.oversold self)%float = true)).
Proof.
  intros Hp Hlen Hr.
  exists (flat_map (RSIAlphaModel.emitted get_price_history calculate_rsi self) pre),
         (flat_map (RSIAlphaModel.emitted get_price_history calculate_rsi self) post).
  pose proof (rsi_emitted_signal get_price_history calculate_rsi
                self sym prices earlier v Hp Hlen Hr) as Hsig.
  split; [apply rsi_generate_flat_map|]. split; [apply rsi_generate_flat_map|].
  split; [|split; [|split]].
  - intros Hob. rewrite Hob in Hsig.
    rewrite rsi_generate_flat_map, flat_map_app. simpl. now rewrite Hsig.
  - intros Hob Hos. rewrite Hob, Hos in Hsig.
    rewrite rsi_generate_flat_map, flat_map_app. simpl. now rewrite Hsig.
  - intros Hob Hos. rewrite Hob, Hos in Hsig.
    rewrite rsi_generate_flat_map, flat_map_app. simpl. now rewrite Hsig.
  - intros Hord [Hob Hos].
    rewrite (FloatOrder.below_lower_not_above_upper _ _ _ Hos Hord) in Hob. discriminate.
Qed.

(** X5.  A latest RSI value that is NaN gives no insight, and neither does
    a NaN among the last two points of the fast or the slow average: every
    comparison with NaN is false, and the symbol is passed over. *)
Theorem nan_gives_no_signal (pre : list string) (sym : string) (post : list string) :
  (forall (rsi : RSIAlphaModel.t) (prices earlier : list float),
      get_price_history sym 50 = Ok prices ->
      calculate_rsi prices (RSIAlphaModel.rsi_period rsi) = Ok (earlier ++ [nan]) ->
      RSIAlphaModel.generate_insights get_price_history calculate_rsi rsi
        (pre ++ sym :: post)
      = RSIAlphaModel.generate_insights get_price_history calculate_rsi rsi (pre ++ post))
  /\ (forall (ma : MovingAverageCrossAlphaModel.t) (prices fast_earlier slow_earlier : list float)
             (fast_prev fast_cur slow_prev slow_cur : float),
         get_price_history sym
           (Z.max (MovingAverageCrossAlphaModel.fast_period ma)
                  (MovingAverageCrossAlphaModel.slow_period ma) + 10) = Ok prices ->
         calculate_sma prices (MovingAverageCrossAlphaModel.fast_period ma)
         = Ok (fast_earlier ++ [fast_prev; fast_cur]) ->
         calculate_sma prices (MovingAverageCrossAlphaModel.slow_period ma)
         = Ok (slow_earlier ++ [slow_prev; slow_cur]) ->
         fast_prev = nan \/ fast_cur = nan \/ slow_prev = nan \/ slow_cur = nan ->
         MovingAverageCrossAlphaModel.generate_insights get_price_history calculate_sma ma
           (pre ++ sym :: post)
         = MovingAverageCrossAlphaModel.generate_insights get_price_history calculate_sma ma
             (pre ++ post)).
Proof.
  split.
  - intros rsi prices earlier Hp Hr. apply rsi_skips_with.
    unfold RSIAlphaModel.emitted, RSIAlphaModel.try_block. rewrite Hp; simpl.
    destruct (len prices <? _)%Z; [reflexivity|].
    rewrite Hr; simpl.
    destruct (earlier ++ [nan]) as [|r rs] eqn:E; [reflexivity|].
    rewrite <- E, getitem_neg_last; simpl.
    destruct (FloatOrder.nan_comparisons (RSIAlphaModel.overbought rsi)) as [-> _].
    now destruct (FloatOrder.nan_comparisons (RSIAlphaModel.oversold rsi)) as [_ [-> _]].
  - intros ma prices fe se fp fc sp sc Hp Hf Hs Hnan. apply ma_skips_with.
    destruct (Z_lt_le_dec (len prices) (MovingAverageCrossAlphaModel.slow_period ma + 2))
      as [Hshort|Hlen].
    + unfold MovingAverageCrossAlphaModel.emitted, MovingAverageCrossAlphaModel.try_block.
      rewrite Hp; simpl.
      now replace (len prices <? _)%Z with true by (symmetry; apply Z.ltb_lt; lia).
    + rewrite (ma_emitted_signal get_price_history calculate_sma
                 ma sym prices fe se fp fc sp sc Hp Hlen Hf Hs).
      destruct Hnan as [-> | [-> | [-> | ->]]].
      * destruct (FloatOrder.nan_comparisons sp) as [_ [_ [-> ->]]]. reflexivity.
      * destruct (FloatOrder.nan_comparisons sc) as [-> [-> _]].
        now rewrite !andb_false_r.
      * destruct (FloatOrder.nan_comparisons fp) as [_ [_ [-> ->]]]. reflexivity.
      * destruct (FloatOrder.nan_comparisons fc) as [-> [-> _]].
        now rewrite !andb_false_r.
Qed.

End MoreOnSignalModels.

(* ===================================================================== *)
(** ** More on the composite model                                         *)
(* ===================================================================== *)

Module CompositeMore.

Import CompositeAlphaModel.

Lemma filter_comp {A : Type} (p q : A -> bool) (l : list A) :
  filter p (filter q l) = filter (fun x => q x && p x)%bool l.
Proof.
  induction l as [|x l IH]; simpl; [reflexivity|].
  destruct (q x); simpl; [destruct (p x)|]; now rewrite IH.
Qed.

Lemma keys_dict_append_mem (d : dict) (k : string) (i : PyInsight) :
  keys (dict_append d k i) = if mem k (keys d) then keys d else keys d ++ [k].
Proof.
  unfold keys, mem. induction d as [|[k' v] d IH]; simpl; [reflexivity|].
  rewrite (String.eqb_sym k k').
  destruct (String.eqb k' k); simpl; [reflexivity|].
  rewrite IH. now destruct (existsb (String.eqb k) (map fst d)).
Qed.

Lemma keys_grouping_from (all_insights : list PyInsight) (d : dict) :
  keys (fold_left (fun d i => dict_append d (symbol i) i) all_insights d)
  = keys d ++ filter (fun y => negb (mem y (keys d)))
                     (first_occurrences (map symbol all_insights)).
Proof.
  revert d; induction all_insights as [|i rest IH]; intros d; simpl.
  - now rewrite app_nil_r.
  - rewrite IH, keys_dict_append_mem.
    destruct (mem (symbol i) (keys d)) eqn:Hmem; simpl.
    + f_equal. rewrite filter_comp. apply filter_ext. intros y.
      destruct (String.eqb_spec (symbol i) y) as [<-|_]; simpl; [now rewrite Hmem|reflexivity].
    + rewrite <- app_assoc. simpl. f_equal. f_equal.
      rewrite filter_comp. apply filter_ext. intros y.
      unfold mem. rewrite existsb_app; simpl.
      rewrite orb_false_r, negb_orb, (String.eqb_sym y (symbol i)).
      apply andb_comm.
Qed.

Lemma values_dict_append (d : dict) (k : string) (i : PyInsight) :
  Permutation (List.concat (map snd (dict_append d k i)))
              (List.concat (map snd d) ++ [i]).
Proof.
  induction d as [|[k' v] d IH]; simpl; [reflexivity|].
  destruct (String.eqb k' k); simpl.
  - rewrite <- !app_assoc. apply Permutation_app_head, Permutation_app_comm.
  - rewrite <- app_assoc. now apply Permutation_app_head.
Qed.

Lemma values_grouping_from (all_insights : list PyInsight) (d : dict) :
  Permutation
    (List.concat
       (map snd (fold_left (fun d i => dict_append d (symbol i) i) all_insights d)))
    (List.concat (map snd d) ++ all_insights).
Proof.
  revert d; induction all_insights as [|i rest IH]; intros d; simpl.
  - now rewrite app_nil_r.
  - rewrite IH, values_dict_append. now rewrite <- app_assoc.
Qed.

Lemma lookup_entry (d : dict) (k : string) (v : list PyInsight) :
  NoDup (keys d) -> In (k, v) d -> lookup d k = v.
Proof.
  unfold keys. induction d as [|[k' v'] d IH]; simpl; [contradiction|].
  intros Hnd [H|H].
  - injection H as -> ->. now rewrite String.eqb_refl.
  - inversion Hnd as [|? ? Hnotin Hnd']; subst.
    destruct (String.eqb_spec k' k) as [->|_]; [|now apply IH].
    exfalso. apply Hnotin. apply in_map_iff. now exists (k, v).
Qed.

Lemma first_occurrences_In (x : string) (l : list string) :
  In x (first_occurrences l) <-> In x l.
Proof.
  induction l as [|y l IH]; simpl; [tauto|].
  rewrite filter_In, IH.
  destruct (String.eqb_spec y x) as [->|Hne]; simpl; [tauto|].
  split; [tauto|]. intros [H|H]; [contradiction|auto].
Qed.

Lemma group_keys (all_insights : list PyInsight) :
  keys (group_by_symbol all_insights) = first_occurrences (map symbol all_insights).
Proof.
  unfold group_by_symbol. rewrite keys_grouping_from. unfold mem. simpl.
  induction (first_occurrences (map symbol all_insights)) as [|x l IH]; simpl; congruence.
Qed.

Lemma for_symbol_nil_iff (all_insights : list PyInsight) (s : string) :
  for_symbol s all_insights = [] <-> ~ In s (map symbol all_insights).
Proof.
  unfold for_symbol. split.
  - intros He Hs. apply in_map_iff in Hs. destruct Hs as (i & Hi & Hin).
    assert (H : In i (filter (fun i => String.eqb (symbol i) s) all_insights))
      by (apply filter_In; split; [exact Hin|now apply String.eqb_eq]).
    now rewrite He in H.
  - intros Hs. destruct (filter _ all_insights) as [|i l] eqn:E; [reflexivity|].
    exfalso. apply Hs.
    assert (H : In i (filter (fun i => String.eqb (symbol i) s) all_insights))
      by (rewrite E; now left).
    apply filter_In in H. destruct H as [H1 H2]. apply String.eqb_eq in H2.
    apply in_map_iff. now exists i.
Qed.

Lemma group_entry (all_insights : list PyInsight) (k : string) (v : list PyInsight) :
  In (k, v) (group_by_symbol all_insights) -> v = for_symbol k all_insights.
Proof.
  intros Hkv.
  destruct (CompositeFacts.group_by_symbol_spec all_insights) as [Hnd Hlk].
  rewrite <- Hlk. symmetry. now apply lookup_entry.
Qed.

(** X6.  The dictionary built from the collected insights has the symbols
    as keys, each once, in the order of their first insight; under a key
    are the insights of that symbol in the order of collection, at least
    one; and the groups together hold every collected insight exactly
    once. *)
Theorem grouping_partitions_the_insights (all_insights : list PyInsight) :
  keys (group_by_symbol all_insights) = first_occurrences (map symbol all_insights)
  /\ NoDup (keys (group_by_symbol all_insights))
  /\ (forall k v, In (k, v) (group_by_symbol all_insights) ->
                  v = for_symbol k all_insights /\ v <> [])
  /\ Permutation (List.concat (map snd (group_by_symbol all_insights))) all_insights
  /\ (forall s, lookup (group_by_symbol all_insights) s = []
                <-> ~ In s (map symbol all_insights)).
Proof.
  destruct (CompositeFacts.group_by_symbol_spec all_insights) as [Hnd Hlk].
  split; [apply group_keys|]. split; [exact Hnd|]. split; [|split].
  - intros k v Hkv.
    pose proof (group_entry all_insights k v Hkv) as Hv.
    split; [exact Hv|]. rewrite Hv. intros He. apply for_symbol_nil_iff in He. apply He.
    apply first_occurrences_In. rewrite <- group_keys.
    unfold keys. apply in_map_iff. now exists (k, v).
  - apply (values_grouping_from all_insights []).
  - intros s. rewrite Hlk. apply for_symbol_nil_iff.
Qed.

(** *** Which symbols get a composite insight, and in which order *)

Lemma emitted_decided (n k : string) (g : list PyInsight) :
  map symbol (emitted n (k, g)) = (if decided g then [k] else [])
  /\ Forall (well_formed n) (emitted n (k, g)).
Proof.
  unfold emitted, consensus_step, decided, well_formed.
  destruct (2 <=? len g)%Z; simpl; [|split; constructor].
  destruct (_ <? _)%Z; simpl.
  { split; [reflexivity|]. constructor; [|constructor]. simpl.
    repeat split; auto. eexists; reflexivity. }
  destruct (_ <? _)%Z; simpl; [|split; constructor].
  split; [reflexivity|]. constructor; [|constructor]. simpl.
  repeat split; auto. eexists; reflexivity.
Qed.

Lemma consensus_symbols_filter (n : string) (d : dict) :
  map symbol (flat_map (emitted n) d)
  = map fst (filter (fun kv => decided (snd kv)) d).
Proof.
  induction d as [|[k v] d IH]; cbn [flat_map filter map snd fst]; [reflexivity|].
  rewrite map_app, IH. destruct (emitted_decided n k v) as [-> _].
  now destruct (decided v).
Qed.

Lemma filter_keys (p : list PyInsight -> bool) (g : string -> list PyInsight) (d : dict) :
  (forall k v, In (k, v) d -> v = g k) ->
  map fst (filter (fun kv => p (snd kv)) d) = filter (fun k => p (g k)) (keys d).
Proof.
  unfold keys. induction d as [|[k v] d IH]; intros Hd; simpl; [reflexivity|].
  rewrite <- (Hd k v) by now left.
  destruct (p v); simpl; rewrite IH; auto; intros k' v' H; apply Hd; now right.
Qed.

Lemma composite_confidences (self : t) (symbols : list string)
  (all_insights : list PyInsight) :
  collect (models self) symbols = Ok all_insights ->
  exists out,
    generate_insights self symbols = Ok out
    /\ Forall (fun i => exists c, confidence i = Some c) out.
Proof.
  intros Hc. unfold generate_insights. rewrite Hc; simpl.
  eexists. split; [reflexivity|]. rewrite CompositeFacts.consensus_flat_map.
  apply Forall_forall. intros i Hin. apply in_flat_map in Hin.
  destruct Hin as ([k v] & _ & Hin).
  destruct (emitted_decided (name self) k v) as [_ Hwf].
  rewrite Forall_forall in Hwf. now destruct (Hwf i Hin) as (_ & Hc' & _).
Qed.

(** X7.  The composite insights come in the order in which their symbols
    first appear among the collected insights, one for each symbol whose
    group reaches the quorum with a strict majority and none for any other;
    each is Up or Down, has a confidence, the magnitude 1.0 and the
    composite's name as source, whatever the sub-models put into theirs. *)
Theorem composite_result_order (self : t) (symbols : list string)
  (all_insights : list PyInsight) :
  collect (models self) symbols = Ok all_insights ->
  exists out,
    generate_insights self symbols = Ok out
    /\ map symbol out
       = filter (fun s => decided (for_symbol s all_insights))
                (first_occurrences (map symbol all_insights))
    /\ Forall (well_formed (name self)) out.
Proof.
  intros Hc. unfold generate_insights. rewrite Hc; simpl.
  eexists. split; [reflexivity|]. rewrite CompositeFacts.consensus_flat_map. split.
  - rewrite consensus_symbols_filter.
    rewrite (filter_keys decided (fun k => for_symbol k all_insights));
      [now rewrite group_keys|apply group_entry].
  - apply Forall_forall. intros i Hin. apply in_flat_map in Hin.
    destruct Hin as ([k v] & _ & Hin).
    destruct (emitted_decided (name self) k v) as [_ Hwf].
    rewrite Forall_forall in Hwf. now apply Hwf.
Qed.

(** *** Failures of the sub-models *)

Lemma collect_all_succeed (ms : list BasePythonAlphaModel.t) (symbols : list string) :
  (exists all_insights, collect ms symbols = Ok all_insights)
  <-> Forall (fun m => exists l, BasePythonAlphaModel.generate_insights m symbols = Ok l) ms.
Proof.
  split.
  - intros [all_insights Hc]. apply CompositeFacts.collect_spec in Hc.
    destruct Hc as (outputs & HF & _).
    induction HF as [|m l ms outputs Hm _ IH]; constructor; [now exists l|exact IH].
  - intros HF.
    assert (H : exists outputs,
               Forall2 (fun m l => BasePythonAlphaModel.generate_insights m symbols = Ok l)
                       ms outputs).
    { induction HF as [|m ms [l Hm] _ [outputs IH]]; [exists []; constructor|].
      exists (l :: outputs). now constructor. }
    destruct H as [outputs H]. exists (List.concat outputs).
    apply CompositeFacts.collect_spec. now exists outputs.
Qed.

Lemma collect_first_failure (ms1 : list BasePythonAlphaModel.t) (m : BasePythonAlphaModel.t)
  (ms2 : list BasePythonAlphaModel.t) (symbols : list string) (e : exn) :
  Forall (fun m' => exists l, BasePythonAlphaModel.generate_insights m' symbols = Ok l) ms1 ->
  BasePythonAlphaModel.generate_insights m symbols = Raise e ->
  collect (ms1 ++ m :: ms2) symbols = Raise e.
Proof.
  intros HF Hm. unfold collect. generalize (@nil PyInsight).
  induction HF as [|m' ms1 [l Hl] _ IH]; intros acc; simpl.
  - now rewrite Hm.
  - rewrite Hl; simpl. apply IH.
Qed.

(** X8.  The composite model does not isolate its sub-models: when a
    sub-model raises, the models before it having answered, the call raises
    that same exception and returns no insight at all; the call returns
    exactly when every sub-model does. *)
Theorem composite_propagates_failure (self : t) (symbols : list string) :
  (forall ms1 m ms2 e,
      models self = ms1 ++ m :: ms2 ->
      Forall (fun m' => exists l, BasePythonAlphaModel.generate_insights m' symbols = Ok l)
             ms1 ->
      BasePythonAlphaModel.generate_insights m symbols = Raise e ->
      generate_insights self symbols = Raise e)
  /\ ((exists out, generate_insights self symbols = Ok out)
      <-> Forall (fun m => exists l, BasePythonAlphaModel.generate_insights m symbols = Ok l)
                 (models self)).
Proof.
  split.
  - intros ms1 m ms2 e Hms HF Hm. unfold generate_insights.
    now rewrite Hms, (collect_first_failure ms1 m ms2 symbols e HF Hm).
  - rewrite <- collect_all_succeed. unfold generate_insights. split.
    + intros [out Hout]. destruct (collect (models self) symbols) as [a|e];
        [now exists a|discriminate].
    + intros [a Ha]. rewrite Ha. simpl. eexists; reflexivity.
Qed.

(** *** How many sub-models it takes *)

Lemma for_symbol_concat (s : string) (outputs : list (list PyInsight)) :
  for_symbol s (List.concat outputs) = List.concat (map (for_symbol s) outputs).
Proof.
  induction outputs as [|l outputs IH]; simpl; [reflexivity|].
  now rewrite for_symbol_app, IH.
Qed.

Lemma for_symbol_NoDup_length (s : string) (l : list PyInsight) :
  NoDup (map symbol l) ->
  List.length (for_symbol s l) = if mentions s l then 1%nat else 0%nat.
Proof.
  unfold mentions, for_symbol. induction l as [|x l IH]; simpl; intros Hnd; [reflexivity|].
  inversion Hnd as [|? ? Hnotin Hnd']; subst.
  destruct (String.eqb (symbol x) s) eqn:Hx; simpl.
  - apply String.eqb_eq in Hx. subst s.
    apply for_symbol_nil_iff in Hnotin. unfold for_symbol in Hnotin. now rewrite Hnotin.
  - now apply IH.
Qed.

Lemma for_symbol_NoDup_at_most_one (s : string) (l : list PyInsight) :
  NoDup (map symbol l) -> at_most_one_for s (for_symbol s l).
Proof.
  intros Hnd. pose proof (for_symbol_NoDup_length s l Hnd) as Hlen.
  unfold at_most_one_for.
  destruct (for_symbol s l) as [|i [|j r]] eqn:E; [now left| |].
  - right. exists i. split; [reflexivity|].
    assert (H : In i (for_symbol s l)) by (rewrite E; now left).
    unfold for_symbol in H. apply filter_In in H. now apply String.eqb_eq.
  - simpl in Hlen. destruct (mentions s l); discriminate.
Qed.

Lemma group_size (s : string) (outputs : list (list PyInsight)) :
  Forall (fun l => NoDup (map symbol l)) outputs ->
  List.length (for_symbol s (List.concat outputs))
  = List.length (filter (mentions s) outputs).
Proof.
  rewrite for_symbol_concat.
  induction 1 as [|l outputs Hl _ IH]; simpl; [reflexivity|].
  rewrite length_app, IH, (for_symbol_NoDup_length s l Hl).
  now destruct (mentions s l).
Qed.

Lemma emitted_needs_quorum (n s : string) (g : list PyInsight) :
  emitted n (s, g) <> [] -> (2 <= List.length g)%nat.
Proof.
  unfold emitted, consensus_step, len.
  destruct (2 <=? Z.of_nat (List.length g))%Z eqn:Hq; [|congruence].
  intros _. apply Z.leb_le in Hq. lia.
Qed.

(** X9.  When no sub-model emits two insights for one symbol, as the RSI
    model and the cross model on distinct symbols and every composite
    model do, a composite insight for a symbol takes at least two
    sub-models that emitted for it; so a composite of fewer than two such
    sub-models returns the empty list. *)
Theorem composite_needs_two_sub_models (self : t) (symbols : list string)
  (outputs : list (list PyInsight)) :
  Forall2 (fun m l => BasePythonAlphaModel.generate_insights m symbols = Ok l)
          (models self) outputs ->
  Forall (fun l => NoDup (map symbol l)) outputs ->
  exists out,
    generate_insights self symbols = Ok out
    /\ (forall i, In i out ->
                  (2 <= List.length (filter (mentions (symbol i)) outputs))%nat)
    /\ ((List.length (models self) < 2)%nat -> out = []).
Proof.
  intros HF Hnd.
  assert (Hc : collect (models self) symbols = Ok (List.concat outputs))
    by (apply CompositeFacts.collect_spec; now exists outputs).
  destruct (CompositeFacts.generate_per_symbol self symbols _ Hc)
    as (out & Hgen & _ & Hper).
  assert (Htwo : forall i, In i out ->
                   (2 <= List.length (filter (mentions (symbol i)) outputs))%nat).
  { intros i Hin. rewrite <- (group_size (symbol i) outputs Hnd).
    apply (emitted_needs_quorum (name self) (symbol i)).
    rewrite <- Hper. intros He.
    assert (H : In i (for_symbol (symbol i) out))
      by (unfold for_symbol; apply filter_In; split; [exact Hin|apply String.eqb_refl]).
    now rewrite He in H. }
  exists out. split; [exact Hgen|]. split; [exact Htwo|].
  intros Hfew. destruct out as [|i out]; [reflexivity|]. exfalso.
  specialize (Htwo i (or_introl eq_refl)).
  pose proof (filter_length_le (mentions (symbol i)) outputs) as Hle.
  pose proof (Forall2_length HF) as Hlen. lia.
Qed.

(** *** The composite of the RSI model and the cross model *)

Section RsiAndCross.

Variable get_price_history : string -> Z -> result (list float).
Variable calculate_rsi : list float -> Z -> result (list float).
Variable calculate_sma : list float -> Z -> result (list float).

Lemma avg_confidence_pair (r m : PyInsight) :
  avg_confidence [r; m]
  = ((0 + or_else (confidence r) 0.5 + or_else (confidence m) 0.5) / 2)%float.
Proof. reflexivity. Qed.

Lemma directions_of_pair (n s : string) (r m : PyInsight) :
  (direction r = "Up" \/ direction r = "Down") ->
  (direction m = "Up" \/ direction m = "Down") ->
  (direction r <> direction m -> emitted n (s, [r; m]) = [])
  /\ (direction r = direction m ->
      emitted n (s, [r; m])
      = [mkInsight s (direction r) (Some (avg_confidence [r; m])) (Some 1%float) (Some n)]).
Proof.
  unfold emitted, consensus_step, is_up, is_down.
  intros [Hr|Hr] [Hm|Hm]; cbn [filter]; rewrite !Hr, !Hm; simpl; split; intros H;
    try reflexivity; try congruence.
Qed.

(** X10.  The composite of an RSI model and a cross model, on distinct
    symbols, emits for a symbol exactly when both models emit for it in
    the same direction: then one insight for that symbol in that
    direction, of magnitude 1.0 and source ["Composite_Alpha_Model"], whose
    confidence is [(0 + (c or 0.5) + 0.7) / 2] for the confidence [c] of the
    RSI insight and the 0.7 of the cross insight; when only one model
    emits or the two disagree, nothing. *)
Theorem composite_of_rsi_and_cross (rsi : RSIAlphaModel.t)
  (ma : MovingAverageCrossAlphaModel.t) (self : t) (symbols : list string) :
  init [RSIAlphaModel.as_model get_price_history calculate_rsi rsi;
        MovingAverageCrossAlphaModel.as_model get_price_history calculate_sma ma]
  = Ok self ->
  NoDup symbols ->
  exists rsi_out ma_out out,
    RSIAlphaModel.generate_insights get_price_history calculate_rsi rsi symbols = Ok rsi_out
    /\ MovingAverageCrossAlphaModel.generate_insights
         get_price_history calculate_sma ma symbols = Ok ma_out
    /\ generate_insights self symbols = Ok out
    /\ forall s,
        at_most_one_for s (for_symbol s rsi_out)
        /\ at_most_one_for s (for_symbol s ma_out)
        /\ (for_symbol s rsi_out = [] \/ for_symbol s ma_out = [] ->
            for_symbol s out = [])
        /\ (forall r m,
               for_symbol s rsi_out = [r] -> for_symbol s ma_out = [m] ->
               (direction r <> direction m -> for_symbol s out = [])
               /\ (direction r = direction m ->
                   exists c,
                     confidence r = Some c
                     /\ confidence m = Some 0.7%float
                     /\ for_symbol s out
                        = [mkInsight s (direction r)
                             (Some ((0 + or_else (Some c) 0.5 + 0.7) / 2)%float)
                             (Some 1%float) (Some "Composite_Alpha_Model")])).
Proof.
  intros Hinit Hnd. injection Hinit as <-.
  set (rsi_out := flat_map (RSIAlphaModel.emitted get_price_history calculate_rsi rsi) symbols).
  set (ma_out := flat_map (MovingAverageCrossAlphaModel.emitted
                             get_price_history calculate_sma ma) symbols).
  assert (Hrsi : RSIAlphaModel.generate_insights get_price_history calculate_rsi rsi symbols
                 = Ok rsi_out) by apply rsi_generate_flat_map.
  assert (Hma : MovingAverageCrossAlphaModel.generate_insights
                  get_price_history calculate_sma ma symbols = Ok ma_out)
    by apply ma_generate_flat_map.
  assert (Hc : collect
                 [RSIAlphaModel.as_model get_price_history calculate_rsi rsi;
                  MovingAverageCrossAlphaModel.as_model get_price_history calculate_sma ma]
                 symbols = Ok (rsi_out ++ ma_out)).
  { unfold collect. simpl. rewrite Hrsi. simpl. rewrite Hma. reflexivity. }
  destruct (CompositeFacts.generate_per_symbol
              (mk "Composite_Alpha_Model"
                 [RSIAlphaModel.as_model get_price_history calculate_rsi rsi;
                  MovingAverageCrossAlphaModel.as_model get_price_history calculate_sma ma])
              symbols _ Hc) as (out & Hgen & _ & Hper).
  exists rsi_out, ma_out, out. split; [exact Hrsi|]. split; [exact Hma|].
  split; [exact Hgen|]. intros s.
  assert (Hr1 : at_most_one_for s (for_symbol s rsi_out)).
  { apply for_symbol_NoDup_at_most_one, at_most_one_NoDup;
      [apply rsi_emitted_at_most_one|exact Hnd]. }
  assert (Hm1 : at_most_one_for s (for_symbol s ma_out)).
  { apply for_symbol_NoDup_at_most_one, at_most_one_NoDup;
      [apply ma_emitted_at_most_one|exact Hnd]. }
  split; [exact Hr1|]. split; [exact Hm1|].
  rewrite Hper, for_symbol_app. cbn [name]. split.
  - intros [He|He]; rewrite He.
    + destruct Hm1 as [->|(m & -> & _)]; reflexivity.
    + destruct Hr1 as [->|(r & -> & _)]; reflexivity.
  - intros r m Hr Hm. rewrite Hr, Hm. simpl app.
    assert (Hrs : (direction r = "Up" \/ direction r = "Down")
                  /\ exists c, confidence r = Some c).
    { assert (Hin : In r rsi_out).
      { assert (H : In r (for_symbol s rsi_out)) by (rewrite Hr; now left).
        unfold for_symbol in H. now apply filter_In in H. }
      apply in_flat_map in Hin. destruct Hin as (x & _ & Hin).
      destruct (rsi_emitted_shape _ _ _ _ _ Hin) as (_ & Hd & Hcf & _). now split. }
    assert (Hms : (direction m = "Up" \/ direction m = "Down")
                  /\ confidence m = Some 0.7%float).
    { assert (Hin : In m ma_out).
      { assert (H : In m (for_symbol s ma_out)) by (rewrite Hm; now left).
        unfold for_symbol in H. now apply filter_In in H. }
      apply in_flat_map in Hin. destruct Hin as (x & _ & Hin).
      destruct (ma_emitted_shape _ _ _ _ _ Hin) as (_ & (Hd & _) & Hcf). now split. }
    destruct Hrs as [Hdr (c & Hcr)]. destruct Hms as [Hdm Hcm].
    destruct (directions_of_pair "Composite_Alpha_Model" s r m Hdr Hdm) as [Hdiff Hsame].
    split; [exact Hdiff|].
    intros Heq. exists c. split; [exact Hcr|]. split; [exact Hcm|].
    rewrite (Hsame Heq), avg_confidence_pair, Hcr, Hcm. reflexivity.
Qed.

End RsiAndCross.

End CompositeMore.

(* ===================================================================== *)
(** ** The demonstration                                                   *)
(* ===================================================================== *)

Module DemonstrationFacts.

Import Demonstration.

Lemma comprehension_shift {B : Type} (f g : nat -> result B) (xs : list nat) :
  (forall x, In x xs -> f (S x) = g x) ->
  comprehension f (map S xs) = comprehension g xs.
Proof.
  induction xs as [|x xs IH]; intros Hfg; simpl; [reflexivity|].
  rewrite (Hfg x) by now left.
  rewrite IH by (intros y Hy; apply Hfg; now right). reflexivity.
Qed.

(** The returns of a list with at least two prices: the first one, then
    the returns of the list without its first price. *)
Lemma returns_step (p q : float) (rest : list float) :
  returns (p :: q :: rest)
  = (r <- truediv (q - p)%float p ;; rs <- returns (q :: rest) ;; Ok (r :: rs)).
Proof.
  unfold returns. cbn [List.length Nat.sub seq comprehension].
  replace (S (List.length rest) - 0)%nat with (S (List.length rest)) by lia.
  cbn [seq comprehension getitem nth_error bind Nat.sub].
  destruct (truediv (q - p) p) as [r|e]; [|reflexivity].
  replace (List.length rest - 0)%nat with (List.length rest) by lia.
  rewrite <- seq_shift.
  rewrite (comprehension_shift _
             (fun i => cur <- getitem (q :: rest) i ;;
                       prev <- getitem (q :: rest) (i - 1) ;;
                       prev' <- getitem (q :: rest) (i - 1) ;;
                       truediv (cur - prev)%float prev')).
  - cbn [bind]. now destruct (comprehension _ (seq 1 (List.length rest))).
  - intros x Hx. apply in_seq in Hx.
    destruct x as [|x]; [lia|].
    cbn [getitem nth_error Nat.sub]. now replace (x - 0)%nat with x by lia.
Qed.

(** X11.  The list of returns has one entry less than the list of prices,
    the relative change from each price to the next; it is empty for
    fewer than two prices; and the computation raises [ZeroDivisionError]
    exactly when a price other than the last is a zero. *)
Theorem returns_of_prices (prices : list float) :
  (Forall (fun p => (p =? 0)%float = false) (removelast prices) ->
   returns prices
   = Ok (map (fun pc => ((snd pc - fst pc) / fst pc)%float) (combine prices (tl prices)))
   /\ List.length (map (fun pc => ((snd pc - fst pc) / fst pc)%float)
                       (combine prices (tl prices)))
      = (List.length prices - 1)%nat)
  /\ (Exists (fun p => (p =? 0)%float = true) (removelast prices) ->
      returns prices = Raise (Exception "float division by zero")).
Proof.
  induction prices as [|p [|q rest] IH].
  - split; [intros _; split; reflexivity|]. intros H. inversion H.
  - split; [intros _; split; reflexivity|]. intros H. inversion H.
  - destruct IH as [IHok IHzero].
    rewrite returns_step. unfold truediv.
    change (removelast (p :: q :: rest)) with (p :: removelast (q :: rest)).
    split.
    + intros HF. inversion HF as [|? ? Hp HF']; subst.
      destruct (IHok HF') as [Hret Hlen].
      rewrite Hp. cbn [bind]. rewrite Hret. split; [reflexivity|].
      cbn [tl combine map List.length] in *. rewrite Hlen. simpl. lia.
    + intros HE. destruct (p =? 0)%float eqn:Hp; [reflexivity|].
      inversion HE as [? ? Hp'|? ? HE']; subst; [congruence|].
      cbn [bind]. now rewrite (IHzero HE').
Qed.

Lemma print_insights_succeeds (insights : list PyInsight) :
  Forall (fun i => exists c, confidence i = Some c) insights ->
  print_insights insights = Ok tt.
Proof.
  unfold print_insights. induction 1 as [|i l [c Hc] _ IH]; simpl; [reflexivity|].
  now rewrite Hc.
Qed.

Section Collaborators.

Variable get_price_history : string -> Z -> result (list float).
Variable calculate_rsi : list float -> Z -> result (list float).
Variable calculate_sma : list float -> Z -> result (list float).
Variable calculate_ema : list float -> Z -> result (list float).
Variable calculate_risk_metrics : list float -> result RiskMetrics.

(** The three strategy parts of the demonstration always succeed. *)
Lemma strategies_succeed :
  exists r m c,
    strategies get_price_history calculate_rsi calculate_sma = Ok (r, m, c)
    /\ RSIAlphaModel.generate_insights get_price_history calculate_rsi
         (RSIAlphaModel.mk "RSI_Alpha_Model" 14 70 30) symbols = Ok r
    /\ MovingAverageCrossAlphaModel.generate_insights get_price_history calculate_sma
         (MovingAverageCrossAlphaModel.mk "MA_Cross_Alpha_Model" 10 20) symbols = Ok m
    /\ CompositeAlphaModel.generate_insights
         (CompositeAlphaModel.mk "Composite_Alpha_Model"
            [RSIAlphaModel.as_model get_price_history calculate_rsi
               (RSIAlphaModel.mk "RSI_Alpha_Model" 14 70 30);
             MovingAverageCrossAlphaModel.as_model get_price_history calculate_sma
               (MovingAverageCrossAlphaModel.mk "MA_Cross_Alpha_Model" 10 20)])
         symbols = Ok c.
Proof.
  unfold strategies, RSIAlphaModel.init, MovingAverageCrossAlphaModel.init,
    CompositeAlphaModel.init.
  cbn [bind].
  destruct (signal_confidences get_price_history calculate_rsi calculate_sma
              (RSIAlphaModel.mk "RSI_Alpha_Model" 14 70 30)
              (MovingAverageCrossAlphaModel.mk "MA_Cross_Alpha_Model" 10 20) symbols)
    as [(r & Hr & Hrc) (m & Hm & Hmc)].
  set (composite := CompositeAlphaModel.mk "Composite_Alpha_Model" _).
  assert (Hc : CompositeAlphaModel.collect (CompositeAlphaModel.models composite) symbols
               = Ok (r ++ m)).
  { unfold CompositeAlphaModel.collect. simpl. rewrite Hr. simpl. rewrite Hm. reflexivity. }
  destruct (CompositeMore.composite_confidences composite symbols _ Hc)
    as (c & Hgen & Hcc).
  exists r, m, c.
  rewrite Hr. cbn [bind]. rewrite (print_insights_succeeds r Hrc). cbn [bind].
  rewrite Hm. cbn [bind]. rewrite (print_insights_succeeds m Hmc). cbn [bind].
  rewrite Hgen. cbn [bind]. rewrite (print_insights_succeeds c Hcc). cbn [bind].
  repeat split; assumption || reflexivity.
Qed.

(** X12.  The demonstration never fails in its three strategy parts; it
    raises exactly when its last part does, as on an empty series of
    averages ([IndexError]) or when the returns cannot be computed; and
    when every indicator has a latest value and the returns and the risk
    metrics are computed, it reports the insights of the three models, the
    number of prices, the three latest values and the risk metrics. *)
Theorem demonstration_outcome :
  exists r m c,
    RSIAlphaModel.generate_insights get_price_history calculate_rsi
      (RSIAlphaModel.mk "RSI_Alpha_Model" 14 70 30) symbols = Ok r
    /\ MovingAverageCrossAlphaModel.generate_insights get_price_history calculate_sma
         (MovingAverageCrossAlphaModel.mk "MA_Cross_Alpha_Model" 10 20) symbols = Ok m
    /\ CompositeAlphaModel.generate_insights
         (CompositeAlphaModel.mk "Composite_Alpha_Model"
            [RSIAlphaModel.as_model get_price_history calculate_rsi
               (RSIAlphaModel.mk "RSI_Alpha_Model" 14 70 30);
             MovingAverageCrossAlphaModel.as_model get_price_history calculate_sma
               (MovingAverageCrossAlphaModel.mk "MA_Cross_Alpha_Model" 10 20)])
         symbols = Ok c
    /\ (forall e,
           demonstrate_python_strategy get_price_history calculate_rsi calculate_sma
             calculate_ema calculate_risk_metrics = Raise e
           <-> indicators get_price_history calculate_rsi calculate_sma
                 calculate_ema calculate_risk_metrics = Raise e)
    /\ (forall prices ema_20 rsi_14,
           get_price_history "BTCUSDT" 30 = Ok prices ->
           calculate_sma prices 20 = Ok [] ->
           calculate_ema prices 20 = Ok ema_20 ->
           calculate_rsi prices 14 = Ok rsi_14 ->
           demonstrate_python_strategy get_price_history calculate_rsi calculate_sma
             calculate_ema calculate_risk_metrics
           = Raise (Exception "list index out of range"))
    /\ (forall prices sma_earlier sma ema_earlier ema rsi_earlier rsi,
           get_price_history "BTCUSDT" 30 = Ok prices ->
           calculate_sma prices 20 = Ok (sma_earlier ++ [sma]) ->
           calculate_ema prices 20 = Ok (ema_earlier ++ [ema]) ->
           calculate_rsi prices 14 = Ok (rsi_earlier ++ [rsi]) ->
           (forall e,
               returns prices = Raise e ->
               demonstrate_python_strategy get_price_history calculate_rsi calculate_sma
                 calculate_ema calculate_risk_metrics
               = Raise e)
           /\ (forall rets risk,
                  returns prices = Ok rets ->
                  calculate_risk_metrics rets = Ok risk ->
                  demonstrate_python_strategy get_price_history calculate_rsi calculate_sma
                    calculate_ema calculate_risk_metrics
                  = Ok (mkReport r m c (len prices) sma ema rsi risk))).
Proof.
  destruct strategies_succeed as (r & m & c & Hs & Hr & Hm & Hc).
  exists r, m, c. split; [exact Hr|]. split; [exact Hm|]. split; [exact Hc|].
  unfold demonstrate_python_strategy. rewrite Hs. cbn [bind].
  split; [|split].
  - intros e.
    destruct (indicators _ _ _ _ _) as [[[[[n s1] s2] s3] risk]|e']; cbn [bind];
      [split; discriminate|split; intros [= ->]; reflexivity].
  - intros prices ema_20 rsi_14 Hp Hsma Hema Hrsi.
    unfold indicators. rewrite Hp. cbn [bind]. rewrite Hsma. cbn [bind].
    rewrite Hema. cbn [bind]. rewrite Hrsi. reflexivity.
  - intros prices se s ee e re r' Hp Hsma Hema Hrsi.
    unfold indicators. rewrite Hp. cbn [bind]. rewrite Hsma. cbn [bind].
    rewrite Hema. cbn [bind]. rewrite Hrsi. cbn [bind].
    rewrite !getitem_neg_last. cbn [bind]. split.
    + intros e0 Hret. now rewrite Hret.
    + intros rets risk Hret Hrisk. rewrite Hret. cbn [bind]. now rewrite Hrisk.
Qed.

End Collaborators.

End DemonstrationFacts.

(* ===================================================================== *)
(** ** More concrete runs                                                  *)
(* ===================================================================== *)

(** The threshold rule on a run: ["NEW"] has too few prices, the provider
    raises on ["BAD"], and an RSI of 85 against the thresholds 30 and 70
    gives Down with the confidence clamped to 0.9; an RSI of 25 gives Up
    with the confidence 0.5. *)
Lemma rsi_threshold_rule_witness :
  RSIAlphaModel.generate_insights Sample.get_price_history (Sample.calculate_rsi 85)
    (RSIAlphaModel.mk "RSI_Alpha_Model" 14 70 30) (["NEW"] ++ "BTCUSDT" :: ["BAD"])
  = Ok [mkInsight "BTCUSDT" "Down" (Some 0.9%float) (Some 1%float)
          (Some "RSI_Alpha_Model")]
  /\ RSIAlphaModel.generate_insights Sample.get_price_history (Sample.calculate_rsi 25)
       (RSIAlphaModel.mk "RSI_Alpha_Model" 14 70 30) (["NEW"] ++ "BTCUSDT" :: ["BAD"])
     = Ok [mkInsight "BTCUSDT" "Up" (Some 0.5%float) (Some 1%float)
             (Some "RSI_Alpha_Model")].
Proof.
  split.
  - destruct (rsi_threshold_rule Sample.get_price_history (Sample.calculate_rsi 85)
                (RSIAlphaModel.mk "RSI_Alpha_Model" 14 70 30) "BTCUSDT"
                (repeat 100%float 30) [50%float] 85%float ["NEW"] ["BAD"]
                eq_refl ltac:(vm_compute; discriminate) eq_refl eq_refl)
      as [(out_pre & out_post & Hpre & Hpost & Hdown & _) _].
    apply Ok_inj in Hpre. apply Ok_inj in Hpost. subst out_pre out_post.
    rewrite (Hdown eq_refl). now vm_compute.
  - destruct (rsi_threshold_rule Sample.get_price_history (Sample.calculate_rsi 25)
                (RSIAlphaModel.mk "RSI_Alpha_Model" 14 70 30) "BTCUSDT"
                (repeat 100%float 30) [50%float] 25%float ["NEW"] ["BAD"]
                eq_refl ltac:(vm_compute; discriminate) eq_refl eq_refl)
      as [(out_pre & out_post & Hpre & Hpost & _ & Hup & _) _].
    apply Ok_inj in Hpre. apply Ok_inj in Hpost. subst out_pre out_post.
    rewrite (Hup eq_refl). now vm_compute.
Defined.

(** Overlapping thresholds, [overbought = 30] and [oversold = 70], and a
    latest RSI of 50: the value passes both tests and the model emits
    Down, with the confidence min(0.9, (50 - 30) / 10) = 0.9. *)
Lemma rsi_rule_for_any_thresholds_witness :
  (30 <? 50)%float = true /\ (50 <? 70)%float = true
  /\ RSIAlphaModel.generate_insights Sample.get_price_history (Sample.calculate_rsi 50)
       (RSIAlphaModel.mk "RSI_Alpha_Model" 14 30 70) (["NEW"] ++ "BTCUSDT" :: ["BAD"])
     = Ok [mkInsight "BTCUSDT" "Down" (Some 0.9%float) (Some 1%float)
             (Some "RSI_Alpha_Model")].
Proof.
  split; [reflexivity|]. split; [reflexivity|].
  destruct (rsi_rule_for_any_thresholds Sample.get_price_history (Sample.calculate_rsi 50)
              (RSIAlphaModel.mk "RSI_Alpha_Model" 14 30 70) "BTCUSDT"
              (repeat 100%float 30) [50%float] 50%float ["NEW"] ["BAD"]
              eq_refl ltac:(vm_compute; discriminate) eq_refl)
    as (out_pre & out_post & Hpre & Hpost & Hdown & _).
  apply Ok_inj in Hpre. apply Ok_inj in Hpost. subst out_pre out_post.
  rewrite (Hdown eq_refl). now vm_compute.
Defined.

(** ["NEW"] has three prices only: it is skipped. *)
Lemma insufficient_data_is_skipped_witness :
  RSIAlphaModel.generate_insights Sample.get_price_history (Sample.calculate_rsi 85)
    (RSIAlphaModel.mk "RSI_Alpha_Model" 14 70 30) (["BTCUSDT"] ++ "NEW" :: ["ETHUSDT"])
  = RSIAlphaModel.generate_insights Sample.get_price_history (Sample.calculate_rsi 85)
      (RSIAlphaModel.mk "RSI_Alpha_Model" 14 70 30) (["BTCUSDT"] ++ ["ETHUSDT"]).
Proof.
  apply (proj1 (proj1 (insufficient_data_is_skipped Sample.get_price_history
                         ["BTCUSDT"] "NEW" ["ETHUSDT"])
                  (RSIAlphaModel.mk "RSI_Alpha_Model" 14 70 30) [1; 2; 3]%float eq_refl)).
  vm_compute. reflexivity.
Defined.

(** A series that ends in NaN: no insight. *)
Lemma nan_gives_no_signal_witness :
  RSIAlphaModel.generate_insights Sample.get_price_history (Sample.calculate_rsi nan)
    (RSIAlphaModel.mk "RSI_Alpha_Model" 14 70 30) ([] ++ "BTCUSDT" :: [])
  = Ok [].
Proof.
  rewrite (proj1 (nan_gives_no_signal Sample.get_price_history (Sample.calculate_rsi nan)
                    (Sample.calculate_sma 10 [] []) [] "BTCUSDT" [])
             (RSIAlphaModel.mk "RSI_Alpha_Model" 14 70 30)
             (repeat 100%float 30) [50%float] eq_refl eq_refl).
  reflexivity.
Defined.

(** Insights collected in the order BTC, ETH, BTC, ETH, ETH: the composite
    insights come for BTC, then ETH. *)
Lemma composite_result_order_witness :
  exists out,
    CompositeAlphaModel.generate_insights
      (Sample.composite
         [Sample.constant_model "a" "BTCUSDT" "Up" (Some 0.8%float);
          Sample.constant_model "b" "ETHUSDT" "Down" (Some 0.6%float);
          Sample.constant_model "c" "BTCUSDT" "Up" (Some 0.6%float);
          Sample.constant_model "d" "ETHUSDT" "Up" (Some 0.5%float);
          Sample.constant_model "e" "ETHUSDT" "Down" (Some 0.7%float)])
      [] = Ok out
    /\ map symbol out = ["BTCUSDT"; "ETHUSDT"].
Proof.
  destruct (CompositeMore.composite_result_order
              (Sample.composite
                 [Sample.constant_model "a" "BTCUSDT" "Up" (Some 0.8%float);
                  Sample.constant_model "b" "ETHUSDT" "Down" (Some 0.6%float);
                  Sample.constant_model "c" "BTCUSDT" "Up" (Some 0.6%float);
                  Sample.constant_model "d" "ETHUSDT" "Up" (Some 0.5%float);
                  Sample.constant_model "e" "ETHUSDT" "Down" (Some 0.7%float)])
              [] _ eq_refl) as (out & Hgen & Hsym & _).
  exists out. split; [exact Hgen|]. rewrite Hsym. now vm_compute.
Defined.

(** The second of three sub-models raises: so does the composite. *)
Lemma composite_propagates_failure_witness :
  CompositeAlphaModel.generate_insights
    (Sample.composite
       [Sample.constant_model "a" "BTCUSDT" "Up" (Some 0.8%float);
        Sample.failing_model "f";
        Sample.constant_model "b" "BTCUSDT" "Up" (Some 0.6%float)])
    ["BTCUSDT"]
  = Raise (Exception "model failure").
Proof.
  apply (proj1 (CompositeMore.composite_propagates_failure _ _)
           [Sample.constant_model "a" "BTCUSDT" "Up" (Some 0.8%float)]
           (Sample.failing_model "f")
           [Sample.constant_model "b" "BTCUSDT" "Up" (Some 0.6%float)]).
  - reflexivity.
  - constructor; [eexists; reflexivity|constructor].
  - reflexivity.
Defined.

(** A composite whose only sub-model is another composite returns nothing,
    whatever the inner composite emits. *)
Lemma composite_needs_two_sub_models_witness :
  CompositeAlphaModel.generate_insights
    (Sample.composite
       [CompositeAlphaModel.as_model
          (Sample.composite
             [Sample.constant_model "a" "BTCUSDT" "Up" (Some 0.8%float);
              Sample.constant_model "b" "BTCUSDT" "Up" (Some 0.6%float)])])
    ["BTCUSDT"]
  = Ok [].
Proof.
  destruct (CompositeMore.composite_needs_two_sub_models
              (Sample.composite
                 [CompositeAlphaModel.as_model
                    (Sample.composite
                       [Sample.constant_model "a" "BTCUSDT" "Up" (Some 0.8%float);
                        Sample.constant_model "b" "BTCUSDT" "Up" (Some 0.6%float)])])
              ["BTCUSDT"]
              [[mkInsight "BTCUSDT" "Up" (Some 0.7%float) (Some 1%float)
                  (Some "Composite_Alpha_Model")]])
    as (out & Hgen & _ & Hfew).
  - constructor; [now vm_compute|constructor].
  - constructor; [|constructor]. simpl. constructor; [intros []|constructor].
  - rewrite Hgen. f_equal. apply Hfew. simpl. lia.
Defined.

(** An RSI of 25 and a golden cross: the composite is Up with the
    confidence (0.5 + 0.7) / 2 = 0.6. *)
Lemma composite_of_rsi_and_cross_witness :
  exists out,
    CompositeAlphaModel.generate_insights
      (Sample.composite
         [RSIAlphaModel.as_model Sample.get_price_history (Sample.calculate_rsi 25)
            (RSIAlphaModel.mk "RSI_Alpha_Model" 14 70 30);
          MovingAverageCrossAlphaModel.as_model Sample.get_price_history
            (Sample.calculate_sma 10 [10; 10; 12]%float [11; 11; 11]%float)
            (MovingAverageCrossAlphaModel.mk "MA_Cross_Alpha_Model" 10 20)])
      ["BTCUSDT"; "NEW"] = Ok out
    /\ for_symbol "BTCUSDT" out
       = [mkInsight "BTCUSDT" "Up" (Some 0.6%float) (Some 1%float)
            (Some "Composite_Alpha_Model")]
    /\ for_symbol "NEW" out = [].
Proof.
  destruct (CompositeMore.composite_of_rsi_and_cross
              Sample.get_price_history (Sample.calculate_rsi 25)
              (Sample.calculate_sma 10 [10; 10; 12]%float [11; 11; 11]%float)
              (RSIAlphaModel.mk "RSI_Alpha_Model" 14 70 30)
              (MovingAverageCrossAlphaModel.mk "MA_Cross_Alpha_Model" 10 20)
              _ ["BTCUSDT"; "NEW"] eq_refl
              ltac:(repeat constructor; simpl; intuition discriminate))
    as (rsi_out & ma_out & out & Hrsi & Hma & Hgen & Hper).
  assert (Er : rsi_out = [make_insight "RSI_Alpha_Model" "BTCUSDT" "Up" 0.5%float])
    by (apply Ok_inj; rewrite <- Hrsi; now vm_compute).
  assert (Em : ma_out = [make_insight "MA_Cross_Alpha_Model" "BTCUSDT" "Up" 0.7%float])
    by (apply Ok_inj; rewrite <- Hma; now vm_compute).
  subst rsi_out ma_out.
  exists out. split; [exact Hgen|]. split.
  - destruct (Hper "BTCUSDT") as (_ & _ & _ & Hboth).
    destruct (Hboth _ _ eq_refl eq_refl) as [_ Hsame].
    destruct (Hsame eq_refl) as (c & Hc & _ & ->).
    apply (f_equal (fun o => match o with Some x => x | None => 0%float end)) in Hc.
    simpl in Hc. subst c. now vm_compute.
  - destruct (Hper "NEW") as (_ & _ & Hnone & _). apply Hnone. now left.
Defined.

(** A zero among the earlier prices: [ZeroDivisionError]. *)
Lemma returns_of_prices_witness :
  Demonstration.returns [100; 0; 5]%float = Raise (Exception "float division by zero")
  /\ Demonstration.returns [100; 110; 121]%float
     = Ok [((110 - 100) / 100)%float; ((121 - 110) / 110)%float].
Proof.
  split.
  - apply (proj2 (DemonstrationFacts.returns_of_prices [100; 0; 5]%float)).
    simpl. apply Exists_cons_tl, Exists_cons_hd. reflexivity.
  - apply (proj1 (DemonstrationFacts.returns_of_prices [100; 110; 121]%float)).
    simpl. repeat constructor.
Defined.

(** With an engine that has no average to give for the period 20, the
    demonstration stops on [sma_20[-1]]. *)
Lemma demonstration_outcome_witness :
  Demonstration.demonstrate_python_strategy Sample.get_price_history
    (Sample.calculate_rsi 85) (Sample.calculate_sma 10 [10; 10; 12]%float [])
    Sample.no_rsi (fun _ => Ok (Demonstration.mkRisk 0 0 0 0))
  = Raise (Exception "list index out of range").
Proof.
  destruct (DemonstrationFacts.demonstration_outcome Sample.get_price_history
              (Sample.calculate_rsi 85) (Sample.calculate_sma 10 [10; 10; 12]%float [])
              Sample.no_rsi (fun _ => Ok (Demonstration.mkRisk 0 0 0 0)))
    as (r & m & c & _ & _ & _ & _ & Hempty & _).
  apply (Hempty (repeat 100%float 30) [] [50; 85]%float); reflexivity.
Defined.
